(** * Word Vector API: request handlers and startup sequence

    A shallow embedding of [word-embeddings-app/main.py] (module [App]) and of
    the older root [main.py] (module [Legacy]).

    Conventions of the embedding.
    - Python [str] is [string]; query words that reach a handler are ASCII
      (the route pattern admits letters and the hyphen only), so [str.lower]
      is the ASCII lowering [lower].
    - Python [int] is [Z]; a similarity score is a binary64 [float]
      ([float(numpy.float32)] is exact, so the conversion is the identity).
    - The gensim model is an external object: a record of its vocabulary and
      of the two operations the handlers call, each of which may raise.
    - [app.state] is a record of optional attributes: [None] is an attribute
      that was never set (what [hasattr] and the default of [getattr] see).
    - Handlers and the lifespan run in the monad [M]: state passing, a log of
      observable events and an exceptional result.  [print] calls and the
      wall-clock timing of the load are left out. *)

From Stdlib Require Import String Ascii ZArith List Bool Lia PrimFloat.
From Stdlib Require Import DecimalString.
Import ListNotations.
Open Scope string_scope.
Open Scope Z_scope.
Set Warnings "-register-all".

(** ** Strings *)

Definition is_upper (c : ascii) : bool :=
  let n := nat_of_ascii c in (65 <=? n)%nat && (n <=? 90)%nat.

Definition lower_ascii (c : ascii) : ascii :=
  if is_upper c then ascii_of_nat (nat_of_ascii c + 32) else c.

(** [str.lower()] on ASCII text. *)
Fixpoint lower (s : string) : string :=
  match s with
  | EmptyString => EmptyString
  | String c r => String (lower_ascii c) (lower r)
  end.

(** [str(n)] for an integer. *)
Definition str_of_Z (z : Z) : string := NilZero.string_of_int (Z.to_int z).

(** [w in d] for the keys of a dict, kept in iteration order. *)
Definition mem (w : string) (keys : list string) : bool :=
  existsb (String.eqb w) keys.

(** ** Exceptions

    Every exception the program meets derives from [Exception]:
    FastAPI's [HTTPException] (a subclass of Starlette's, itself a subclass of
    [Exception]) and whatever the libraries raise. *)
Inductive exn : Type :=
| HTTPException (status_code : Z) (detail : string)
| OtherException (message : string).

(** [str(e)].  Starlette's [HTTPException.__str__] gives
    ["{status_code}: {detail}"]. *)
Definition str_exn (e : exn) : string :=
  match e with
  | HTTPException c d => str_of_Z c ++ ": " ++ d
  | OtherException m => m
  end.

(** [HTTPException(status_code=404,
                  detail=f"Word '{word}' not found in vocabulary")]. *)
Definition not_found (word : string) : exn :=
  HTTPException 404 ("Word '" ++ word ++ "' not found in vocabulary").

(** ** JSON values and HTTP responses *)
Inductive json : Type :=
| JNull
| JBool (b : bool)
| JInt (n : Z)
| JFloat (x : float)
| JStr (s : string)
| JList (l : list json)
| JObj (fields : list (string * json)).

Inductive body : Type :=
| JsonBody (j : json)
| TextBody (s : string).

Record response : Type := mkResponse { status : Z; content : body }.

(** ** The embedding model (gensim [KeyedVectors]) *)
Record KeyedVectors : Type := mkKeyedVectors {
  key_to_index : list string;
  vector_size : Z;
  similarity : string -> string -> exn + float;
  (** [most_similar(positive, negative, topn)]; a bare word given as
      [positive] stands for the one-element list. *)
  most_similar : list string -> list string -> Z -> exn + list (string * float)
}.

(** [len(model)] is the vocabulary size, which is also the truth value of the
    object. *)
Definition truthy (m : option KeyedVectors) : bool :=
  match m with
  | None => false
  | Some kv => negb (Nat.eqb (length (key_to_index kv)) 0)
  end.

Module App.

(** ** [app.state] *)
Record AppState : Type := mkState {
  model_loaded : option bool;
  loading_status : option string;
  loading_progress : option Z;
  model : option (option KeyedVectors)
}.

(** The state of a fresh [FastAPI()] object: none of the attributes is set. *)
Definition fresh : AppState := mkState None None None None.

Definition with_model_loaded (b : bool) (s : AppState) : AppState :=
  mkState (Some b) (loading_status s) (loading_progress s) (model s).
Definition with_loading_status (t : string) (s : AppState) : AppState :=
  mkState (model_loaded s) (Some t) (loading_progress s) (model s).
Definition with_loading_progress (n : Z) (s : AppState) : AppState :=
  mkState (model_loaded s) (loading_status s) (Some n) (model s).
Definition with_model (m : option KeyedVectors) (s : AppState) : AppState :=
  mkState (model_loaded s) (loading_status s) (loading_progress s) (Some m).
Definition without_model (s : AppState) : AppState :=
  mkState (model_loaded s) (loading_status s) (loading_progress s) None.

(** ** Observable events *)
Inductive event : Type :=
| EvSetAttr (after : AppState)            (* an attribute of app.state written or deleted *)
| EvApiLoad (name : string)               (* gensim.downloader.load *)
| EvGcCollect
| EvLookup (w : string)                   (* w in model.key_to_index *)
| EvVocabLen                              (* len(model.key_to_index) *)
| EvVocabKeys                             (* model.key_to_index.keys() *)
| EvVectorSize                            (* model.vector_size *)
| EvSimilarity (w1 w2 : string)           (* model.similarity *)
| EvMostSimilar (positive negative : list string) (topn : Z)
| EvLogError (msg : string).              (* logger.error *)

Definition is_write (e : event) : bool :=
  match e with EvSetAttr _ => true | _ => false end.

(** A vector computation, as opposed to a vocabulary lookup. *)
Definition is_computation (e : event) : bool :=
  match e with
  | EvSimilarity _ _ | EvMostSimilar _ _ _ => true
  | _ => false
  end.

(** ** The monad *)
Record outcome (A : Type) : Type := mkOutcome {
  final : AppState;
  trace : list event;
  result : exn + A
}.
Arguments mkOutcome {A} _ _ _.
Arguments final {A} _.
Arguments trace {A} _.
Arguments result {A} _.

Definition M (A : Type) : Type := AppState -> outcome A.

Definition ret {A} (a : A) : M A := fun s => mkOutcome s [] (inr a).

Definition raise {A} (e : exn) : M A := fun s => mkOutcome s [] (inl e).

Definition bind {A B} (m : M A) (k : A -> M B) : M B :=
  fun s =>
    match m s with
    | mkOutcome s1 t1 (inl e) => mkOutcome s1 t1 (inl e)
    | mkOutcome s1 t1 (inr a) =>
        match k a s1 with
        | mkOutcome s2 t2 r => mkOutcome s2 (t1 ++ t2) r
        end
    end.

(** [try: m except Exception as e: h e]. *)
Definition try_except {A} (m : M A) (h : exn -> M A) : M A :=
  fun s =>
    match m s with
    | mkOutcome s1 t1 (inl e) =>
        match h e s1 with
        | mkOutcome s2 t2 r => mkOutcome s2 (t1 ++ t2) r
        end
    | mkOutcome s1 t1 (inr a) => mkOutcome s1 t1 (inr a)
    end.

Definition get : M AppState := fun s => mkOutcome s [] (inr s).

Definition emit (e : event) : M unit := fun s => mkOutcome s [e] (inr tt).

(** An attribute write: the new state is logged. *)
Definition update (f : AppState -> AppState) : M unit :=
  fun s => mkOutcome (f s) [EvSetAttr (f s)] (inr tt).

Definition lift {A} (r : exn + A) : M A :=
  match r with inl e => raise e | inr a => ret a end.

Declare Scope monad_scope.
Delimit Scope monad_scope with monad.
Notation "x <- m ;; k" := (bind m (fun x => k))
  (at level 61, m at next level, right associativity) : monad_scope.
Notation "m ;; k" := (bind m (fun _ => k))
  (at level 61, right associativity) : monad_scope.
Open Scope monad_scope.

(** ** Reading [app.state] *)

(** [getattr(app.state, 'model_loaded', False)]. *)
Definition getattr_model_loaded (s : AppState) : bool :=
  match model_loaded s with Some b => b | None => false end.

(** [hasattr(app.state, 'model')]. *)
Definition hasattr_model (s : AppState) : bool :=
  match model s with Some _ => true | None => false end.

(** [app.state.model]: an [AttributeError] when the attribute is not set. *)
Definition state_model : M (option KeyedVectors) :=
  s <- get ;;
  match model s with
  | Some m => ret m
  | None => raise (OtherException "'State' object has no attribute 'model'")
  end.

(** [app.state.model.<attr>]: the model object itself. *)
Definition the_model (attr : string) : M KeyedVectors :=
  m <- state_model ;;
  match m with
  | Some kv => ret kv
  | None => raise (OtherException
                     ("'NoneType' object has no attribute '" ++ attr ++ "'"))
  end.

(** [w in app.state.model.key_to_index]. *)
Definition in_vocabulary (w : string) : M bool :=
  kv <- the_model "key_to_index" ;;
  emit (EvLookup w) ;;
  ret (mem w (key_to_index kv)).

(** [len(app.state.model.key_to_index)]. *)
Definition vocabulary_size : M Z :=
  kv <- the_model "key_to_index" ;;
  emit EvVocabLen ;;
  ret (Z.of_nat (length (key_to_index kv))).

(** The guard every model endpoint starts with:
    [not getattr(app.state, 'model_loaded', False)
       or not hasattr(app.state, 'model') or app.state.model is None]. *)
Definition not_ready (s : AppState) : bool :=
  if negb (getattr_model_loaded s) then true
  else if negb (hasattr_model s) then true
  else match model s with Some None => true | _ => false end.

Definition require_model : M unit :=
  s <- get ;;
  if not_ready s then raise (HTTPException 503 "Model not loaded") else ret tt.

(** ** Endpoint handlers *)

(** [GET /]. *)
Definition root : M json :=
  ret (JObj [("name", JStr "Word Vector API");
             ("version", JStr "1.0");
             ("status", JStr "running");
             ("endpoints", JList [JStr "/health"; JStr "/similarity";
                                  JStr "/neighbors"; JStr "/analogy";
                                  JStr "/most_similar"])]).

(** The [except Exception as e] clause shared by the three word endpoints. *)
Definition internal_error {A} (what : string) (e : exn) : M A :=
  emit (EvLogError (what ++ str_exn e)) ;;
  raise (HTTPException 500 (str_exn e)).

(** [GET /similarity]. *)
Definition get_similarity (word1 word2 : string) : M json :=
  require_model ;;
  try_except
    (k1 <- in_vocabulary (lower word1) ;;
     if negb k1 then raise (not_found word1) else
     k2 <- in_vocabulary (lower word2) ;;
     if negb k2 then raise (not_found word2) else
     kv <- the_model "similarity" ;;
     emit (EvSimilarity (lower word1) (lower word2)) ;;
     sim <- lift (similarity kv (lower word1) (lower word2)) ;;
     ret (JObj [("word1", JStr (lower word1));
                ("word2", JStr (lower word2));
                ("similarity", JFloat sim)]))
    (internal_error "Error calculating similarity: ").

(** [for word in words: if word not in ...: raise HTTPException(404, ...)]. *)
Fixpoint check_words (words : list string) : M unit :=
  match words with
  | [] => ret tt
  | word :: rest =>
      k <- in_vocabulary word ;;
      if negb k then raise (not_found word) else check_words rest
  end.

(** [[{"word": w, "similarity": float(score)} for w, score in results]]. *)
Definition scored (results : list (string * float)) : json :=
  JList (map (fun p => JObj [("word", JStr (fst p));
                             ("similarity", JFloat (snd p))]) results).

(** [GET /analogy]. *)
Definition solve_analogy (a b c : string) (topn : Z) : M json :=
  require_model ;;
  try_except
    (check_words [lower a; lower b; lower c] ;;
     kv <- the_model "most_similar" ;;
     emit (EvMostSimilar [lower a; lower c] [lower b] topn) ;;
     results <- lift (most_similar kv [lower a; lower c] [lower b] topn) ;;
     ret (JObj [("analogy", JStr (a ++ " - " ++ b ++ " + " ++ c));
                ("results", scored results)]))
    (internal_error "Error solving analogy: ").

(** [GET /neighbors]. *)
Definition get_neighbors (word : string) (topn : Z) : M json :=
  require_model ;;
  try_except
    (k <- in_vocabulary (lower word) ;;
     if negb k then raise (not_found word) else
     kv <- the_model "most_similar" ;;
     emit (EvMostSimilar [lower word] [] topn) ;;
     similar_words <- lift (most_similar kv [lower word] [] topn) ;;
     ret (JObj [("word", JStr (lower word));
                ("neighbors", scored similar_words)]))
    (internal_error "Error finding neighbors: ").

(** [GET /health]; [now] is [datetime.now().isoformat()]. *)
Definition health_check (now : string) : M json :=
  s <- get ;;
  let loaded := getattr_model_loaded s in
  size <- (if loaded && hasattr_model s
           then m <- state_model ;;
                match m with
                | Some _ => vocabulary_size
                | None => ret 0
                end
           else ret 0) ;;
  ret (JObj [("status", JStr (if loaded then "ready" else "initializing"));
             ("timestamp", JStr now);
             ("service", JStr "Word Vector API");
             ("model_loaded", JBool loaded);
             ("vocabulary_size", JInt size)]).

(** [GET /loading-status]. *)
Definition get_loading_status : M json :=
  s <- get ;;
  size <- (if getattr_model_loaded s && hasattr_model s
           then m <- state_model ;;
                if truthy m then vocabulary_size else ret 0
           else ret 0) ;;
  ret (JObj [("model_loaded", JBool (getattr_model_loaded s));
             ("loading_status",
              JStr (match loading_status s with Some t => t | None => "Unknown" end));
             ("loading_progress",
              JInt (match loading_progress s with Some n => n | None => 0 end));
             ("vocabulary_size", JInt size)]).

(** [GET /vocabulary]. *)
Definition get_vocabulary_info : M json :=
  require_model ;;
  size <- vocabulary_size ;;
  kv <- the_model "vector_size" ;;
  emit EvVectorSize ;;
  kv' <- the_model "key_to_index" ;;
  emit EvVocabKeys ;;
  ret (JObj [("vocabulary_size", JInt size);
             ("vector_dimensions", JInt (vector_size kv));
             ("sample_words", JList (map JStr (firstn 20 (key_to_index kv'))))]).

(** A handler together with the arguments FastAPI passes to it. *)
Inductive call : Type :=
| Root
| Similarity (word1 word2 : string)
| Analogy (a b c : string) (topn : Z)
| Neighbors (word : string) (topn : Z)
| Health (now : string)
| LoadingStatus
| Vocabulary.

Definition handle (c : call) : M json :=
  match c with
  | Root => root
  | Similarity w1 w2 => get_similarity w1 w2
  | Analogy a b c topn => solve_analogy a b c topn
  | Neighbors w topn => get_neighbors w topn
  | Health now => health_check now
  | LoadingStatus => get_loading_status
  | Vocabulary => get_vocabulary_info
  end.

(** The endpoints of section 4.4 that need the model. *)
Definition needs_model (c : call) : bool :=
  match c with
  | Similarity _ _ | Analogy _ _ _ _ | Neighbors _ _ | Vocabulary => true
  | _ => false
  end.

(** What the framework sends for the value a handler returns or the exception
    it lets through: a returned dict is a 200 JSON body, an [HTTPException]
    its status with [{"detail": ...}], anything else a bare 500. *)
Definition respond (r : exn + json) : response :=
  match r with
  | inr j => mkResponse 200 (JsonBody j)
  | inl (HTTPException c d) => mkResponse c (JsonBody (JObj [("detail", JStr d)]))
  | inl (OtherException _) => mkResponse 500 (TextBody "Internal Server Error")
  end.

(** [_rate_limit_handler]: the answer to a [RateLimitExceeded]. *)
Definition _rate_limit_handler : response :=
  mkResponse 429 (TextBody "Too Many Requests").

(** ** Parameter declarations and their validation

    [Query(..., min_length=, max_length=, pattern=)] and
    [Query(default=, ge=, le=)] are checked by the framework before the
    handler is called; a failure is answered with status 422 and the handler
    does not run.  The only pattern in use has the shape [^[class]+$], read
    with [$] as the end of the text. *)
Inductive class_item : Type :=
| Range (lo hi : ascii)
| Single (c : ascii).

Definition in_class (items : list class_item) (c : ascii) : bool :=
  existsb (fun it =>
             match it with
             | Range lo hi =>
                 (nat_of_ascii lo <=? nat_of_ascii c)%nat
                 && (nat_of_ascii c <=? nat_of_ascii hi)%nat
             | Single x => Ascii.eqb c x
             end) items.

(** [re.fullmatch("[class]+", s)]. *)
Definition matches_plus (items : list class_item) (s : string) : bool :=
  match s with
  | EmptyString => false
  | _ => forallb (in_class items) (list_ascii_of_string s)
  end.

Record StrQuery : Type := mkStrQuery {
  min_length : nat;
  max_length : nat;
  pattern : list class_item
}.

Record IntQuery : Type := mkIntQuery {
  default : Z;
  ge : Z;
  le : Z
}.

Inductive invalid : Type :=
| Missing
| StringTooShort
| StringTooLong
| PatternMismatch
| LessThan
| GreaterThan.

(** A required string parameter; [None] is a parameter the request lacks. *)
Definition validate_str (q : StrQuery) (v : option string) : invalid + string :=
  match v with
  | None => inl Missing
  | Some s =>
      if (String.length s <? min_length q)%nat then inl StringTooShort
      else if (max_length q <? String.length s)%nat then inl StringTooLong
      else if negb (matches_plus (pattern q) s) then inl PatternMismatch
      else inr s
  end.

(** An optional integer parameter with a default. *)
Definition validate_int (q : IntQuery) (v : option Z) : invalid + Z :=
  match v with
  | None => inr (default q)
  | Some n =>
      if n <? ge q then inl LessThan
      else if le q <? n then inl GreaterThan
      else inr n
  end.

(** [min_length=1, max_length=32, pattern=r"^[A-Za-z-]+$"]. *)
Definition word_query : StrQuery :=
  mkStrQuery 1 32 [Range "A" "Z"; Range "a" "z"; Single "-"].

(** [Query(default=1, ge=1, le=20)] of [/analogy]. *)
Definition analogy_topn : IntQuery := mkIntQuery 1 1 20.

(** [Query(default=10, ge=1, le=20)] of [/neighbors]. *)
Definition neighbors_topn : IntQuery := mkIntQuery 10 1 20.

(** A GET request: the route and its query parameters as sent ([None]: not
    sent).  [topn] is taken as already read as an integer. *)
Inductive request : Type :=
| GetRoot
| GetSimilarity (word1 word2 : option string)
| GetAnalogy (a b c : option string) (topn : option Z)
| GetNeighbors (word : option string) (topn : option Z)
| GetHealth
| GetLoadingStatus
| GetVocabulary.

Definition errors_of {A} (name : string) (r : invalid + A) : list (string * invalid) :=
  match r with inl k => [(name, k)] | inr _ => [] end.

(** All parameters of a route are validated; the handler is called only when
    none failed. *)
Definition validate (now : string) (r : request) : list (string * invalid) + call :=
  match r with
  | GetRoot => inr Root
  | GetSimilarity word1 word2 =>
      let v1 := validate_str word_query word1 in
      let v2 := validate_str word_query word2 in
      match v1, v2 with
      | inr w1, inr w2 => inr (Similarity w1 w2)
      | _, _ => inl (errors_of "word1" v1 ++ errors_of "word2" v2)%list
      end
  | GetAnalogy a b c topn =>
      let va := validate_str word_query a in
      let vb := validate_str word_query b in
      let vc := validate_str word_query c in
      let vn := validate_int analogy_topn topn in
      match va, vb, vc, vn with
      | inr a', inr b', inr c', inr n => inr (Analogy a' b' c' n)
      | _, _, _, _ =>
          inl (errors_of "a" va ++ errors_of "b" vb ++ errors_of "c" vc
               ++ errors_of "topn" vn)%list
      end
  | GetNeighbors word topn =>
      let vw := validate_str word_query word in
      let vn := validate_int neighbors_topn topn in
      match vw, vn with
      | inr w, inr n => inr (Neighbors w n)
      | _, _ => inl (errors_of "word" vw ++ errors_of "topn" vn)%list
      end
  | GetHealth => inr (Health now)
  | GetLoadingStatus => inr LoadingStatus
  | GetVocabulary => inr Vocabulary
  end.

Definition invalid_name (k : invalid) : string :=
  match k with
  | Missing => "missing"
  | StringTooShort => "string_too_short"
  | StringTooLong => "string_too_long"
  | PatternMismatch => "string_pattern_mismatch"
  | LessThan => "greater_than_equal"
  | GreaterThan => "less_than_equal"
  end.

Definition unprocessable (errs : list (string * invalid)) : response :=
  mkResponse 422
    (JsonBody (JObj [("detail",
       JList (map (fun e => JObj [("type", JStr (invalid_name (snd e)));
                                  ("loc", JList [JStr "query"; JStr (fst e)])])
                  errs))])).

(** One request that the rate limiter has let through: validation, then the
    handler, then the response. *)
Definition serve (now : string) (r : request) : M response :=
  match validate now r with
  | inl errs => ret (unprocessable errs)
  | inr c => fun s =>
      let o := handle c s in
      mkOutcome (final o) (trace o) (inr (respond (result o)))
  end.

(** ** Startup and shutdown ([lifespan]) *)

Definition model_name : string := "glove-wiki-gigaword-50".

(** The part of [lifespan] before [yield]; [api_load] is
    [gensim.downloader.load]. *)
Definition lifespan_startup (api_load : string -> exn + KeyedVectors) : M unit :=
  update (with_model_loaded false) ;;
  update (with_loading_status "Starting up...") ;;
  update (with_loading_progress 0) ;;
  update (with_model None) ;;
  try_except
    (update (with_loading_status "Downloading GloVe model...") ;;
     update (with_loading_progress 25) ;;
     update (with_loading_status "Loading model into memory...") ;;
     update (with_loading_progress 50) ;;
     emit (EvApiLoad model_name) ;;
     kv <- lift (api_load model_name) ;;
     update (with_model (Some kv)) ;;
     update (with_loading_status "Optimizing memory usage...") ;;
     update (with_loading_progress 75) ;;
     emit EvGcCollect ;;
     vocabulary_size ;;
     update (with_model_loaded true) ;;
     update (with_loading_status "Ready!") ;;
     update (with_loading_progress 100))
    (fun e =>
       update (with_model None) ;;
       update (with_model_loaded false) ;;
       update (with_loading_status ("Error: " ++ str_exn e)) ;;
       update (with_loading_progress 0)).

(** The part of [lifespan] after [yield]. *)
Definition lifespan_shutdown : M unit :=
  s <- get ;;
  (if hasattr_model s
   then m <- state_model ;;
        if truthy m then update without_model else ret tt
   else ret tt) ;;
  emit EvGcCollect.

(** The states [app.state] goes through while the application starts: the
    fresh state and the state after each assignment, in order. *)
Fixpoint writes (t : list event) : list AppState :=
  match t with
  | [] => []
  | EvSetAttr s :: r => s :: writes r
  | _ :: r => writes r
  end.

Definition startup_states (api_load : string -> exn + KeyedVectors) : list AppState :=
  fresh :: writes (trace (lifespan_startup api_load fresh)).

End App.

(** * The root [main.py]

    The earlier version of the service: one module-level [model] variable, no
    startup state, no parameter constraints.  Handlers are plain functions of
    the variable's value. *)
Module Legacy.

Definition model_name : string := "glove-wiki-gigaword-100".

(** [lifespan] before [yield]: the new value of [model] and how the startup
    ended; a load error is logged and raised again. *)
Definition lifespan_startup (api_load : string -> exn + KeyedVectors)
    (model : option KeyedVectors) : option KeyedVectors * (exn + unit) :=
  match api_load model_name with
  | inr kv => (Some kv, inr tt)
  | inl e => (model, inl e)
  end.

Definition get_similarity (model : option KeyedVectors) (word1 word2 : string)
    : exn + json :=
  match model with
  | Some kv =>
      if negb (truthy model) then inl (HTTPException 503 "Model not loaded") else
      let attempt :=
        if negb (mem (lower word1) (key_to_index kv)) then inl (not_found word1)
        else if negb (mem (lower word2) (key_to_index kv)) then inl (not_found word2)
        else match similarity kv (lower word1) (lower word2) with
             | inl e => inl e
             | inr sim => inr (JObj [("word1", JStr (lower word1));
                                     ("word2", JStr (lower word2));
                                     ("similarity", JFloat sim)])
             end in
      match attempt with
      | inl e => inl (HTTPException 500 (str_exn e))
      | inr j => inr j
      end
  | None => inl (HTTPException 503 "Model not loaded")
  end.

(** [GET /] of the root [main.py]. *)
Definition root (model : option KeyedVectors) : json :=
  JObj [("message", JStr "Word Vector API is running");
        ("model_loaded",
         JBool (match model with Some _ => true | None => false end));
        ("vocabulary_size",
         JInt (match model with
               | Some kv =>
                   if truthy model then Z.of_nat (length (key_to_index kv)) else 0
               | None => 0
               end))].

(** [if not model: raise HTTPException(503, ...)], then the body. *)
Definition when_model (model : option KeyedVectors)
    (body : KeyedVectors -> exn + json) : exn + json :=
  match model with
  | Some kv =>
      if negb (truthy model) then inl (HTTPException 503 "Model not loaded")
      else body kv
  | None => inl (HTTPException 503 "Model not loaded")
  end.

(** [try: ... except Exception as e: raise HTTPException(500, str(e))]. *)
Definition or_500 (attempt : exn + json) : exn + json :=
  match attempt with
  | inl e => inl (HTTPException 500 (str_exn e))
  | inr j => inr j
  end.

Fixpoint check_words (kv : KeyedVectors) (words : list string) : exn + unit :=
  match words with
  | [] => inr tt
  | word :: rest =>
      if negb (mem word (key_to_index kv)) then inl (not_found word)
      else check_words kv rest
  end.

Definition solve_analogy (model : option KeyedVectors) (a b c : string) (topn : Z)
    : exn + json :=
  when_model model (fun kv =>
    or_500
      match check_words kv [lower a; lower b; lower c] with
      | inl e => inl e
      | inr _ =>
          match most_similar kv [lower a; lower c] [lower b] topn with
          | inl e => inl e
          | inr results =>
              inr (JObj [("analogy", JStr (a ++ " - " ++ b ++ " + " ++ c));
                         ("results", App.scored results)])
          end
      end).

Definition get_neighbors (model : option KeyedVectors) (word : string) (topn : Z)
    : exn + json :=
  when_model model (fun kv =>
    or_500
      (if negb (mem (lower word) (key_to_index kv)) then inl (not_found word)
       else match most_similar kv [lower word] [] topn with
            | inl e => inl e
            | inr similar_words =>
                inr (JObj [("word", JStr (lower word));
                           ("neighbors", App.scored similar_words)])
            end)).

Definition get_vocabulary_info (model : option KeyedVectors) : exn + json :=
  when_model model (fun kv =>
    inr (JObj [("vocabulary_size", JInt (Z.of_nat (length (key_to_index kv))));
               ("vector_dimensions", JInt (vector_size kv));
               ("sample_words", JList (map JStr (firstn 20 (key_to_index kv))))])).

End Legacy.

(** * A small model for concrete runs *)
Definition toy_vocabulary : list string := ["king"; "queen"; "man"; "woman"].

Definition toy : KeyedVectors :=
  mkKeyedVectors toy_vocabulary 50
    (fun w1 w2 =>
       if mem w1 toy_vocabulary && mem w2 toy_vocabulary
       then inr (if String.eqb w1 w2 then 1 else 0.5)%float
       else inl (OtherException ("Key '" ++ w1 ++ "' not present")))
    (fun positive negative topn =>
       inr (firstn (Z.to_nat topn)
              (filter (fun p => negb (mem (fst p) (positive ++ negative)))
                 [("queen", 0.75%float); ("woman", 0.5%float);
                  ("king", 0.25%float); ("man", 0.125%float)]))).

(** [app.state] once the toy model is loaded. *)
Definition ready : App.AppState :=
  App.mkState (Some true) (Some "Ready!") (Some 100) (Some (Some toy)).

(** * Notions used in the statements *)
Import App.

Definition service_unavailable : exn := HTTPException 503 "Model not loaded".

(** A trace without attribute writes, and a computation that leaves
    [app.state] as it found it. *)
Definition no_writes (t : list event) : Prop :=
  forallb (fun e => negb (is_write e)) t = true.

Definition read_only {A} (m : M A) : Prop :=
  forall s, final (m s) = s /\ no_writes (trace (m s)).

(** The characters the word pattern names: [A-Z], [a-z] and the hyphen. *)
Definition word_char (c : ascii) : Prop :=
  let n := nat_of_ascii c in
  (nat_of_ascii "A" <= n <= nat_of_ascii "Z")%nat
  \/ (nat_of_ascii "a" <= n <= nat_of_ascii "z")%nat
  \/ c = "-"%char.

(** A word that is empty, longer than 32 characters, or holds a character
    outside the class. *)
Definition bad_word (w : string) : Prop :=
  w = ""
  \/ (32 < String.length w)%nat
  \/ exists c, In c (list_ascii_of_string w) /\ ~ word_char c.

(** The word parameters and the [topn] parameter a request carries. *)
Definition words_of (r : request) : list (option string) :=
  match r with
  | GetSimilarity word1 word2 => [word1; word2]
  | GetAnalogy a b c _ => [a; b; c]
  | GetNeighbors word _ => [word]
  | _ => []
  end.

Definition topn_of (r : request) : option Z :=
  match r with
  | GetAnalogy _ _ _ topn => topn
  | GetNeighbors _ topn => topn
  | _ => None
  end.

(** The request is answered 422 in any state, nothing of the model having
    been touched. *)
Definition rejected (now : string) (r : request) : Prop :=
  forall s, exists resp,
    serve now r s = mkOutcome s [] (inr resp) /\ status resp = 422.

(** What [app.state] holds after a load that failed with [e]. *)
Definition error_state (e : exn) : AppState :=
  mkState (Some false) (Some ("Error: " ++ str_exn e)) (Some 0) (Some None).

(** What [app.state] holds after a load that returned [kv]. *)
Definition ready_state (kv : KeyedVectors) : AppState :=
  mkState (Some true) (Some "Ready!") (Some 100) (Some (Some kv)).

(** How many times the trace calls [api.load]. *)
Fixpoint count_loads (t : list event) : nat :=
  match t with
  | [] => 0
  | EvApiLoad _ :: r => S (count_loads r)
  | _ :: r => count_loads r
  end.

(** The state [app.state] is in when the trace calls [api.load], [cur] being
    the state the trace starts in. *)
Fixpoint state_at_load (cur : AppState) (t : list event) : option AppState :=
  match t with
  | [] => None
  | EvApiLoad _ :: _ => Some cur
  | EvSetAttr s :: r => state_at_load s r
  | _ :: r => state_at_load cur r
  end.

(** The invariant as the specification words it: a state marked loaded has a
    model and shows progress 100. *)
Definition loaded_means_complete (s : AppState) : Prop :=
  model_loaded s = Some true ->
  (exists kv, model s = Some (Some kv)) /\ loading_progress s = Some 100.


Definition faulty : KeyedVectors :=
  mkKeyedVectors toy_vocabulary 50
    (fun _ _ => inl (OtherException "shapes not aligned"))
    (fun _ _ _ => inl (OtherException "cannot compute similarity with no input")).

(** A model object is published: the attribute is set and is not [None]. *)
Definition published (s : AppState) : bool :=
  match model s with Some (Some _) => true | _ => false end.

(** What the status endpoints report as vocabulary size. *)
Definition reported_size (s : AppState) : Z :=
  match model s with
  | Some (Some kv) =>
      if getattr_model_loaded s then Z.of_nat (length (key_to_index kv)) else 0
  | _ => 0
  end.

(** The arguments a handler may be called with once validation has passed. *)
Definition well_formed (c : call) : Prop :=
  match c with
  | Similarity word1 word2 => ~ bad_word word1 /\ ~ bad_word word2
  | Analogy a b c topn =>
      ~ bad_word a /\ ~ bad_word b /\ ~ bad_word c /\ 1 <= topn <= 20
  | Neighbors word topn => ~ bad_word word /\ 1 <= topn <= 20
  | _ => True
  end.

(** The request a call was made for, [topn] apart. *)
Definition sent_as (r : request) (c : call) : Prop :=
  match c with
  | Root => r = GetRoot
  | Similarity word1 word2 => r = GetSimilarity (Some word1) (Some word2)
  | Analogy a b c topn =>
      r = GetAnalogy (Some a) (Some b) (Some c) (Some topn)
      \/ (topn = 1 /\ r = GetAnalogy (Some a) (Some b) (Some c) None)
  | Neighbors word topn =>
      r = GetNeighbors (Some word) (Some topn)
      \/ (topn = 10 /\ r = GetNeighbors (Some word) None)
  | Health _ => r = GetHealth
  | LoadingStatus => r = GetLoadingStatus
  | Vocabulary => r = GetVocabulary
  end.

(** The progress values a list of states shows, unset ones left out. *)
Fixpoint progresses (l : list AppState) : list Z :=
  match l with
  | [] => []
  | s :: r =>
      match loading_progress s with
      | Some n => n :: progresses r
      | None => progresses r
      end
  end.

Fixpoint nondecreasing (l : list Z) : bool :=
  match l with
  | a :: ((b :: _) as r) => (a <=? b) && nondecreasing r
  | _ => true
  end.


(** The words an event hands to the model. *)
Definition words_in (e : event) : list string :=
  match e with
  | EvLookup w => [w]
  | EvSimilarity w1 w2 => [w1; w2]
  | EvMostSimilar positive negative _ => (positive ++ negative)%list
  | _ => []
  end.

(** One to 32 characters, each a lower-case letter or the hyphen. *)
Definition clean_word (w : string) : Prop :=
  w <> ""
  /\ (String.length w <= 32)%nat
  /\ forall c, In c (list_ascii_of_string w) ->
       (nat_of_ascii "a" <= nat_of_ascii c <= nat_of_ascii "z")%nat
       \/ c = "-"%char.

(** * Properties *)

(** ** The monad's equations *)

Lemma bind_raised {A B} (m : M A) (k : A -> M B) s s' t e :
  m s = mkOutcome s' t (inl e) ->
  bind m k s = mkOutcome s' t (inl e).
Proof. intros H. unfold bind. rewrite H. reflexivity. Qed.

Lemma bind_returned {A B} (m : M A) (k : A -> M B) s a :
  m s = mkOutcome s [] (inr a) ->
  bind m k s = k a s.
Proof.
  intros H. unfold bind. rewrite H. destruct (k a s); reflexivity.
Qed.

(** ** The readiness guard *)

Lemma not_ready_iff s :
  not_ready s = true <->
  getattr_model_loaded s = false \/ model s = None \/ model s = Some None.
Proof.
  unfold not_ready, hasattr_model.
  destruct (getattr_model_loaded s); simpl;
    destruct (model s) as [[kv|]|]; simpl; split; intros H; auto;
    try discriminate;
    destruct H as [H|[H|H]]; discriminate.
Qed.

Lemma ready_inv s :
  not_ready s = false ->
  model_loaded s = Some true /\ exists kv, model s = Some (Some kv).
Proof.
  unfold not_ready, hasattr_model, getattr_model_loaded.
  destruct (model_loaded s) as [[|]|]; simpl; try discriminate;
    destruct (model s) as [[kv|]|]; simpl; try discriminate.
  intros _. split; [reflexivity | exists kv; reflexivity].
Qed.

Lemma require_model_refuses s :
  not_ready s = true ->
  require_model s = mkOutcome s [] (inl (HTTPException 503 "Model not loaded")).
Proof.
  intros H. unfold require_model, bind, get. simpl. rewrite H. reflexivity.
Qed.

Lemma require_model_passes s :
  not_ready s = false ->
  require_model s = mkOutcome s [] (inr tt).
Proof.
  intros H. unfold require_model, bind, get. simpl. rewrite H. reflexivity.
Qed.

Lemma guarded_refuses {A} (k : unit -> M A) s :
  not_ready s = true ->
  bind require_model k s = mkOutcome s [] (inl service_unavailable).
Proof. intros H. apply bind_raised, require_model_refuses, H. Qed.

Lemma handle_refuses c s :
  needs_model c = true ->
  not_ready s = true ->
  handle c s = mkOutcome s [] (inl service_unavailable).
Proof.
  intros Hc Hs. destruct c; simpl in Hc; try discriminate; simpl;
    apply guarded_refuses, Hs.
Qed.

(** ** Read-only computations *)

Lemma no_writes_app t1 t2 : no_writes t1 -> no_writes t2 -> no_writes (t1 ++ t2).
Proof. unfold no_writes. intros H1 H2. rewrite forallb_app, H1, H2. reflexivity. Qed.

Lemma read_only_ret {A} (a : A) : read_only (ret a).
Proof. intros s. split; reflexivity. Qed.

Lemma read_only_raise {A} e : read_only (@raise A e).
Proof. intros s. split; reflexivity. Qed.

Lemma read_only_get : read_only get.
Proof. intros s. split; reflexivity. Qed.

Lemma read_only_emit e : is_write e = false -> read_only (emit e).
Proof. intros H s. split; [reflexivity|]. unfold no_writes. simpl. rewrite H. reflexivity. Qed.

Lemma read_only_lift {A} (r : exn + A) : read_only (lift r).
Proof. destruct r; [apply read_only_raise | apply read_only_ret]. Qed.

Lemma read_only_bind {A B} (m : M A) (k : A -> M B) :
  read_only m -> (forall a, read_only (k a)) -> read_only (bind m k).
Proof.
  intros Hm Hk s. unfold bind. specialize (Hm s).
  destruct (m s) as [s1 t1 [e|a]]; cbn [final trace] in Hm;
    destruct Hm as [-> Ht].
  - split; [reflexivity | exact Ht].
  - specialize (Hk a s). destruct (k a s) as [s2 t2 r]; cbn [final trace] in *.
    destruct Hk as [-> Ht']. split; [reflexivity | apply no_writes_app; assumption].
Qed.

Lemma read_only_try {A} (m : M A) (h : exn -> M A) :
  read_only m -> (forall e, read_only (h e)) -> read_only (try_except m h).
Proof.
  intros Hm Hh s. unfold try_except. specialize (Hm s).
  destruct (m s) as [s1 t1 [e|a]]; cbn [final trace] in Hm;
    destruct Hm as [-> Ht].
  - specialize (Hh e s). destruct (h e s) as [s2 t2 r]; cbn [final trace] in *.
    destruct Hh as [-> Ht']. split; [reflexivity | apply no_writes_app; assumption].
  - split; [reflexivity | exact Ht].
Qed.

Ltac read_only_step :=
  match goal with
  | |- read_only (bind _ _) => apply read_only_bind; [ | intros ? ]
  | |- read_only (try_except _ _) => apply read_only_try; [ | intros ? ]
  | |- read_only (ret _) => apply read_only_ret
  | |- read_only (raise _) => apply read_only_raise
  | |- read_only get => apply read_only_get
  | |- read_only (lift _) => apply read_only_lift
  | |- read_only (emit _) => apply read_only_emit; reflexivity
  | |- read_only (if ?b then _ else _) => destruct b
  | |- read_only (match ?x with Some _ => _ | None => _ end) => destruct x
  end.

Ltac read_only_auto := repeat read_only_step.

Lemma read_only_state_model : read_only state_model.
Proof. unfold state_model. read_only_auto. Qed.

Lemma read_only_the_model attr : read_only (the_model attr).
Proof. unfold the_model. read_only_auto. apply read_only_state_model. Qed.

Lemma read_only_in_vocabulary w : read_only (in_vocabulary w).
Proof. unfold in_vocabulary. read_only_auto. apply read_only_the_model. Qed.

Lemma read_only_vocabulary_size : read_only vocabulary_size.
Proof. unfold vocabulary_size. read_only_auto. apply read_only_the_model. Qed.

Lemma read_only_require_model : read_only require_model.
Proof. unfold require_model. read_only_auto. Qed.

Lemma read_only_internal_error {A} what e : read_only (@internal_error A what e).
Proof. unfold internal_error. read_only_auto. Qed.

Lemma read_only_check_words ws : read_only (check_words ws).
Proof.
  induction ws as [|w ws IH]; simpl.
  - apply read_only_ret.
  - read_only_auto; [apply read_only_in_vocabulary | exact IH].
Qed.

Create HintDb readonly.
#[local] Hint Resolve read_only_state_model read_only_the_model
  read_only_in_vocabulary read_only_vocabulary_size read_only_require_model
  read_only_internal_error read_only_check_words : readonly.

Lemma read_only_handle c : read_only (handle c).
Proof.
  destruct c; simpl;
    unfold root, get_similarity, solve_analogy, get_neighbors, health_check,
      get_loading_status, get_vocabulary_info;
    read_only_auto; auto with readonly.
Qed.

Lemma read_only_serve now r : read_only (serve now r).
Proof.
  unfold serve. destruct (validate now r) as [errs|c].
  - apply read_only_ret.
  - intros s. simpl. apply read_only_handle.
Qed.


(** ** Handlers before the model is ready *)



(** ** Handlers do not write *)

Lemma startup_writes api_load : final (lifespan_startup api_load fresh) <> fresh.
Proof.
  intros H. apply (f_equal model_loaded) in H. revert H.
  unfold lifespan_startup.
  destruct (api_load model_name) as [e|kv]; vm_compute; intros H; discriminate H.
Qed.

(** C10: every handler, and the whole path from request to response, ends in
    the state it started in and logs no attribute write; the startup
    sequence does change the state. *)
Theorem handlers_leave_state_unchanged :
  (forall c s, final (handle c s) = s /\ no_writes (trace (handle c s)))
  /\ (forall now r s,
        final (serve now r s) = s /\ no_writes (trace (serve now r s)))
  /\ (forall api_load, final (lifespan_startup api_load fresh) <> fresh).
Proof.
  split; [|split].
  - intros c. apply read_only_handle.
  - intros now r. apply read_only_serve.
  - apply startup_writes.
Qed.

(** ** Parameter validation *)

Lemma in_class_word c :
  in_class (pattern word_query) c = true <-> word_char c.
Proof.
  unfold word_char, in_class, word_query. cbn [pattern existsb].
  rewrite !orb_true_iff, !andb_true_iff, !Nat.leb_le, Ascii.eqb_eq.
  intuition discriminate.
Qed.

Lemma forallb_false_witness {A} (f : A -> bool) l :
  forallb f l = false -> exists x, In x l /\ f x = false.
Proof.
  induction l as [|a l IH]; simpl; [discriminate|].
  destruct (f a) eqn:Ea; simpl.
  - intros H. destruct (IH H) as [x [Hin Hx]]. exists x. auto.
  - intros _. exists a. auto.
Qed.

Lemma matches_plus_word w :
  matches_plus (pattern word_query) w = true <->
  w <> "" /\ forall c, In c (list_ascii_of_string w) -> word_char c.
Proof.
  unfold matches_plus. destruct w as [|a w].
  - split; [discriminate | intros [H _]; contradiction].
  - rewrite forallb_forall. split.
    + intros H. split; [discriminate|]. intros c Hc. apply in_class_word, H, Hc.
    + intros [_ H] c Hc. apply in_class_word, H, Hc.
Qed.

Lemma validate_word_good w :
  ~ bad_word w -> validate_str word_query (Some w) = inr w.
Proof.
  intros Hw. unfold validate_str. simpl min_length. simpl max_length.
  destruct (String.length w <? 1)%nat eqn:E1.
  { apply Nat.ltb_lt in E1. exfalso. apply Hw. left.
    destruct w; [reflexivity | simpl in E1; lia]. }
  destruct (32 <? String.length w)%nat eqn:E2.
  { apply Nat.ltb_lt in E2. exfalso. apply Hw. right. left. exact E2. }
  destruct (matches_plus (pattern word_query) w) eqn:E3; [reflexivity|].
  exfalso. apply Hw. right. right.
  unfold matches_plus in E3. destruct w as [|a w]; [discriminate|].
  apply forallb_false_witness in E3. destruct E3 as [c [Hin Hc]].
  exists c. split; [exact Hin|]. intros Hwc. apply in_class_word in Hwc.
  rewrite Hwc in Hc. discriminate.
Qed.

Lemma validate_word_bad w :
  bad_word w -> exists k, validate_str word_query (Some w) = inl k.
Proof.
  intros Hw. unfold validate_str. simpl min_length. simpl max_length.
  destruct (String.length w <? 1)%nat eqn:E1; [eauto|].
  destruct (32 <? String.length w)%nat eqn:E2; [eauto|].
  destruct (matches_plus (pattern word_query) w) eqn:E3; [|simpl; eauto].
  exfalso. apply matches_plus_word in E3. destruct E3 as [Hne Hall].
  destruct Hw as [H|[H|[c [Hin Hc]]]].
  - contradiction.
  - apply Nat.ltb_ge in E2. lia.
  - apply Hc, Hall, Hin.
Qed.

Lemma validate_topn_outside q n :
  n < ge q \/ le q < n -> exists k, validate_int q (Some n) = inl k.
Proof.
  intros H. unfold validate_int.
  destruct (n <? ge q) eqn:E1; [eauto|].
  destruct (le q <? n) eqn:E2; [eauto|].
  apply Z.ltb_ge in E1. apply Z.ltb_ge in E2. lia.
Qed.

Lemma invalid_is_rejected now r errs :
  validate now r = inl errs -> rejected now r.
Proof.
  intros H s. exists (unprocessable errs). unfold serve. rewrite H.
  split; reflexivity.
Qed.

Ltac settle_validate :=
  repeat match goal with
    | |- context [validate_str ?q ?v] => destruct (validate_str q v)
    | |- context [validate_int ?q ?v] => destruct (validate_int q v)
    end;
  eexists; reflexivity.

Lemma bad_word_fails_validation now r w :
  In (Some w) (words_of r) -> bad_word w -> exists errs, validate now r = inl errs.
Proof.
  intros Hin Hw. destruct (validate_word_bad w Hw) as [k Hk].
  destruct r as [|w1 w2|a b c topn|word topn| | |];
    cbn [words_of In] in Hin; try contradiction; cbn [validate].
  - destruct Hin as [E|[E|[]]]; subst; rewrite Hk; settle_validate.
  - destruct Hin as [E|[E|[E|[]]]]; subst; rewrite Hk; settle_validate.
  - destruct Hin as [E|[]]; subst; rewrite Hk; settle_validate.
Qed.

Lemma bad_topn_fails_validation now r n :
  topn_of r = Some n -> n < 1 \/ 20 < n -> exists errs, validate now r = inl errs.
Proof.
  intros Hr Hn.
  destruct r as [|w1 w2|a b c topn|word topn| | |];
    cbn [topn_of] in Hr; try discriminate; subst topn; cbn [validate].
  - destruct (validate_topn_outside analogy_topn n Hn) as [k Hk]. rewrite Hk.
    settle_validate.
  - destruct (validate_topn_outside neighbors_topn n Hn) as [k Hk]. rewrite Hk.
    settle_validate.
Qed.

(** C3: a request to /similarity, /analogy or /neighbors with a word that is
    empty, longer than 32 characters or holds a character outside [A-Za-z-],
    or with a [topn] outside 1..20, is answered 422 with an empty trace (no
    vocabulary lookup, no handler); with good words and no [topn] the handler
    of /analogy is called with 1 and that of /neighbors with 10. *)
Theorem validation_precedes_lookup :
  (forall now r w, In (Some w) (words_of r) -> bad_word w -> rejected now r)
  /\ (forall now r n, topn_of r = Some n -> n < 1 \/ 20 < n -> rejected now r)
  /\ (forall now a b c, ~ bad_word a -> ~ bad_word b -> ~ bad_word c ->
        validate now (GetAnalogy (Some a) (Some b) (Some c) None)
        = inr (Analogy a b c 1))
  /\ (forall now w, ~ bad_word w ->
        validate now (GetNeighbors (Some w) None) = inr (Neighbors w 10)).
Proof.
  repeat split.
  - intros now r w Hin Hw s.
    destruct (bad_word_fails_validation now r w Hin Hw) as [errs He].
    exact (invalid_is_rejected now r errs He s).
  - intros now r n Hr Hn s.
    destruct (bad_topn_fails_validation now r n Hr Hn) as [errs He].
    exact (invalid_is_rejected now r errs He s).
  - intros now a b c Ha Hb Hc. cbn [validate].
    rewrite (validate_word_good a Ha), (validate_word_good b Hb),
      (validate_word_good c Hc). reflexivity.
  - intros now w Hw. cbn [validate]. rewrite (validate_word_good w Hw).
    reflexivity.
Qed.

Lemma accepted_word_is_good w :
  validate_str word_query (Some w) = inr w -> ~ bad_word w.
Proof.
  intros H Hbad. destruct (validate_word_bad w Hbad) as [k Hk].
  rewrite Hk in H. discriminate.
Qed.

Lemma validation_precedes_lookup_witness :
  rejected "2026-01-01T00:00:00" (GetNeighbors (Some "ki1ng") None)
  /\ rejected "2026-01-01T00:00:00"
       (GetAnalogy (Some "king") (Some "man") (Some "woman") (Some 21))
  /\ validate "2026-01-01T00:00:00"
       (GetAnalogy (Some "king") (Some "man") (Some "woman") None)
     = inr (Analogy "king" "man" "woman" 1)
  /\ validate "2026-01-01T00:00:00" (GetNeighbors (Some "well-known") None)
     = inr (Neighbors "well-known" 10).
Proof.
  destruct validation_precedes_lookup as [Hword [Htopn [Hanalogy Hneighbors]]].
  split; [|split; [|split]].
  - apply (Hword _ _ "ki1ng").
    + simpl. left. reflexivity.
    + right. right. exists "1"%char. split.
      * simpl. auto.
      * unfold word_char.
        intros [H|[H|H]]; [vm_compute in H; lia | vm_compute in H; lia | discriminate].
  - apply (Htopn _ _ 21); [reflexivity | lia].
  - apply Hanalogy; apply accepted_word_is_good; reflexivity.
  - apply Hneighbors; apply accepted_word_is_good; reflexivity.
Defined.

(** ** Unknown words *)

(** C1: at /similarity?word1=zzz&word2=king, /analogy?a=king&b=zzz&c=woman
    and /neighbors?word=zzz with the model loaded and "zzz" not in the
    vocabulary, the 404 raised inside the [try] block is caught by
    [except Exception] and sent as a 500 whose detail is the text of the 404;
    no similarity or neighbour computation is logged.  The root [main.py]
    does the same. *)
Theorem unknown_word_is_answered_500 :
  serve "2026-01-01T00:00:00" (GetSimilarity (Some "zzz") (Some "king")) ready
  = mkOutcome ready
      [EvLookup "zzz";
       EvLogError
         "Error calculating similarity: 404: Word 'zzz' not found in vocabulary"]
      (inr (mkResponse 500
              (JsonBody (JObj [("detail",
                 JStr "404: Word 'zzz' not found in vocabulary")]))))
  /\ serve "2026-01-01T00:00:00"
       (GetAnalogy (Some "king") (Some "zzz") (Some "woman") None) ready
     = mkOutcome ready
         [EvLookup "king"; EvLookup "zzz";
          EvLogError
            "Error solving analogy: 404: Word 'zzz' not found in vocabulary"]
         (inr (mkResponse 500
                 (JsonBody (JObj [("detail",
                    JStr "404: Word 'zzz' not found in vocabulary")]))))
  /\ serve "2026-01-01T00:00:00" (GetNeighbors (Some "zzz") None) ready
     = mkOutcome ready
         [EvLookup "zzz";
          EvLogError
            "Error finding neighbors: 404: Word 'zzz' not found in vocabulary"]
         (inr (mkResponse 500
                 (JsonBody (JObj [("detail",
                    JStr "404: Word 'zzz' not found in vocabulary")]))))
  /\ Legacy.get_similarity (Some toy) "zzz" "king"
     = inl (HTTPException 500 "404: Word 'zzz' not found in vocabulary").
Proof. repeat split; reflexivity. Qed.

(** ** Echoed words *)

(** C9: at /analogy?a=King&b=man&c=woman with the model loaded, the lookups
    and the model call use the lowered words, but the "analogy" field of the
    200 response repeats the words as they were sent. *)
Theorem analogy_echoes_words_as_sent :
  serve "2026-01-01T00:00:00"
    (GetAnalogy (Some "King") (Some "man") (Some "woman") None) ready
  = mkOutcome ready
      [EvLookup "king"; EvLookup "man"; EvLookup "woman";
       EvMostSimilar ["king"; "woman"] ["man"] 1]
      (inr (mkResponse 200
              (JsonBody (JObj [("analogy", JStr "King - man + woman");
                               ("results",
                                JList [JObj [("word", JStr "queen");
                                             ("similarity", JFloat 0.75)]])]))))
  /\ "King - man + woman"
     <> lower "King" ++ " - " ++ lower "man" ++ " + " ++ lower "woman".
Proof. split; [reflexivity | discriminate]. Qed.

(** ** Startup *)

Lemma startup_states_failure api_load e :
  api_load model_name = inl e ->
  startup_states api_load =
  [ mkState None None None None;
    mkState (Some false) None None None;
    mkState (Some false) (Some "Starting up...") None None;
    mkState (Some false) (Some "Starting up...") (Some 0) None;
    mkState (Some false) (Some "Starting up...") (Some 0) (Some None);
    mkState (Some false) (Some "Downloading GloVe model...") (Some 0) (Some None);
    mkState (Some false) (Some "Downloading GloVe model...") (Some 25) (Some None);
    mkState (Some false) (Some "Loading model into memory...") (Some 25) (Some None);
    mkState (Some false) (Some "Loading model into memory...") (Some 50) (Some None);
    mkState (Some false) (Some "Loading model into memory...") (Some 50) (Some None);
    mkState (Some false) (Some "Loading model into memory...") (Some 50) (Some None);
    mkState (Some false) (Some ("Error: " ++ str_exn e)) (Some 50) (Some None);
    error_state e ].
Proof.
  intros E. unfold startup_states, lifespan_startup. rewrite E.
  vm_compute. reflexivity.
Qed.

Lemma startup_states_success api_load kv :
  api_load model_name = inr kv ->
  startup_states api_load =
  [ mkState None None None None;
    mkState (Some false) None None None;
    mkState (Some false) (Some "Starting up...") None None;
    mkState (Some false) (Some "Starting up...") (Some 0) None;
    mkState (Some false) (Some "Starting up...") (Some 0) (Some None);
    mkState (Some false) (Some "Downloading GloVe model...") (Some 0) (Some None);
    mkState (Some false) (Some "Downloading GloVe model...") (Some 25) (Some None);
    mkState (Some false) (Some "Loading model into memory...") (Some 25) (Some None);
    mkState (Some false) (Some "Loading model into memory...") (Some 50) (Some None);
    mkState (Some false) (Some "Loading model into memory...") (Some 50) (Some (Some kv));
    mkState (Some false) (Some "Optimizing memory usage...") (Some 50) (Some (Some kv));
    mkState (Some false) (Some "Optimizing memory usage...") (Some 75) (Some (Some kv));
    mkState (Some true) (Some "Optimizing memory usage...") (Some 75) (Some (Some kv));
    mkState (Some true) (Some "Ready!") (Some 75) (Some (Some kv));
    ready_state kv ].
Proof.
  intros E. unfold startup_states, lifespan_startup. rewrite E.
  vm_compute. reflexivity.
Qed.

Lemma startup_failure api_load e :
  api_load model_name = inl e ->
  result (lifespan_startup api_load fresh) = inr tt
  /\ final (lifespan_startup api_load fresh) = error_state e
  /\ count_loads (trace (lifespan_startup api_load fresh)) = 1%nat.
Proof.
  intros E. unfold lifespan_startup. rewrite E.
  repeat split; vm_compute; reflexivity.
Qed.

Lemma startup_success api_load kv :
  api_load model_name = inr kv ->
  result (lifespan_startup api_load fresh) = inr tt
  /\ final (lifespan_startup api_load fresh) = ready_state kv
  /\ count_loads (trace (lifespan_startup api_load fresh)) = 1%nat.
Proof.
  intros E. unfold lifespan_startup. rewrite E.
  repeat split; vm_compute; reflexivity.
Qed.

Lemma load_runs_while_not_ready api_load :
  state_at_load fresh (trace (lifespan_startup api_load fresh))
  = Some (mkState (Some false) (Some "Loading model into memory...") (Some 50)
                  (Some None)).
Proof.
  unfold lifespan_startup.
  destruct (api_load model_name); vm_compute; reflexivity.
Qed.

(** C5 (as stated, on the root [main.py]): its lifespan logs a load error and
    raises it again, so the startup ends with the exception and the
    application does not come up. *)
Lemma legacy_load_failure_aborts_startup :
  Legacy.lifespan_startup (fun _ => inl (OtherException "no network")) None
  = (None, inl (OtherException "no network"))
  /\ snd (Legacy.lifespan_startup (fun _ => inl (OtherException "no network")) None)
     <> inr tt.
Proof. split; [reflexivity | discriminate]. Qed.

(** C5 (amended, [word-embeddings-app/main.py]): when [api.load] raises [e],
    the startup still completes normally, having tried the load once; the
    state is [model_loaded = False], [loading_status = "Error: " + str(e)],
    [loading_progress = 0], [model = None]; in that state the four model
    endpoints raise 503 without touching the model, and /health and
    /loading-status answer with the state's projection. *)
Theorem load_failure_is_recorded (api_load : string -> exn + KeyedVectors) (e : exn) :
  api_load model_name = inl e ->
  result (lifespan_startup api_load fresh) = inr tt
  /\ final (lifespan_startup api_load fresh) = error_state e
  /\ count_loads (trace (lifespan_startup api_load fresh)) = 1%nat
  /\ (forall c, needs_model c = true ->
        handle c (error_state e)
        = mkOutcome (error_state e) [] (inl (HTTPException 503 "Model not loaded")))
  /\ (forall now,
        health_check now (error_state e)
        = mkOutcome (error_state e) []
            (inr (JObj [("status", JStr "initializing");
                        ("timestamp", JStr now);
                        ("service", JStr "Word Vector API");
                        ("model_loaded", JBool false);
                        ("vocabulary_size", JInt 0)])))
  /\ get_loading_status (error_state e)
     = mkOutcome (error_state e) []
         (inr (JObj [("model_loaded", JBool false);
                     ("loading_status", JStr ("Error: " ++ str_exn e));
                     ("loading_progress", JInt 0);
                     ("vocabulary_size", JInt 0)])).
Proof.
  intros E. destruct (startup_failure api_load e E) as [Hr [Hf Hn]].
  repeat split; try assumption.
  intros c Hc. apply handle_refuses; [exact Hc | reflexivity].
Qed.

Lemma load_failure_is_recorded_witness :
  result (lifespan_startup (fun _ => inl (OtherException "no network")) fresh)
  = inr tt
  /\ final (lifespan_startup (fun _ => inl (OtherException "no network")) fresh)
     = mkState (Some false) (Some "Error: no network") (Some 0) (Some None)
  /\ respond (result (handle Vocabulary
                        (mkState (Some false) (Some "Error: no network")
                                 (Some 0) (Some None))))
     = mkResponse 503 (JsonBody (JObj [("detail", JStr "Model not loaded")])).
Proof.
  destruct (load_failure_is_recorded
              (fun _ => inl (OtherException "no network"))
              (OtherException "no network") eq_refl)
    as [Hr [Hf [_ [H503 _]]]].
  split; [exact Hr | split; [exact Hf |]].
  change (mkState (Some false) (Some "Error: no network") (Some 0) (Some None))
    with (error_state (OtherException "no network")).
  rewrite (H503 Vocabulary eq_refl). reflexivity.
Defined.

(** C6 (as stated): with the toy model, the state right after
    [app.state.model_loaded = True] is a startup state marked loaded whose
    progress is still 75, so the invariant with progress 100 fails. *)
Lemma loaded_before_progress_is_100 :
  ~ (forall api_load s, In s (startup_states api_load) -> loaded_means_complete s).
Proof.
  intros H.
  assert (Hin : In (mkState (Some true) (Some "Optimizing memory usage...")
                            (Some 75) (Some (Some toy)))
                   (startup_states (fun _ => inr toy))).
  { rewrite (startup_states_success (fun _ => inr toy) toy eq_refl).
    simpl. do 12 right. left. reflexivity. }
  destruct (H _ _ Hin eq_refl) as [_ Hp]. discriminate Hp.
Qed.

(** C6 (amended): [model_loaded] becomes true only after the model has been
    assigned.  In every startup state marked loaded the model is the object
    [api.load] returned and the progress is 75 or 100; in every other startup
    state the model endpoints raise 503 without touching the model; the load
    itself runs in such a state; a successful startup ends with
    [model_loaded = True], "Ready!" and progress 100. *)
Theorem model_published_before_loaded (api_load : string -> exn + KeyedVectors) :
  (forall s, In s (startup_states api_load) ->
     (model_loaded s = Some true ->
        exists kv, api_load model_name = inr kv
                   /\ model s = Some (Some kv)
                   /\ (loading_progress s = Some 75 \/ loading_progress s = Some 100))
     /\ (model_loaded s <> Some true ->
           forall c, needs_model c = true ->
             handle c s = mkOutcome s [] (inl (HTTPException 503 "Model not loaded"))))
  /\ (exists s, state_at_load fresh (trace (lifespan_startup api_load fresh)) = Some s
                /\ model_loaded s = Some false)
  /\ (forall kv, api_load model_name = inr kv ->
        final (lifespan_startup api_load fresh) = ready_state kv).
Proof.
  split; [|split].
  - intros s Hin. split.
    + intros Hl. destruct (api_load model_name) as [e|kv] eqn:E.
      * rewrite (startup_states_failure api_load e E) in Hin. simpl in Hin.
        repeat (destruct Hin as [Hin|Hin]; [subst s; discriminate Hl|]).
        contradiction.
      * exists kv. split; [reflexivity|].
        rewrite (startup_states_success api_load kv E) in Hin. simpl in Hin.
        repeat (destruct Hin as [Hin|Hin];
                [subst s; first [discriminate Hl | simpl; auto]|]).
        contradiction.
    + intros Hl c Hc. apply handle_refuses; [exact Hc|].
      apply not_ready_iff. left. unfold getattr_model_loaded.
      destruct (model_loaded s) as [[|]|]; [contradiction Hl| |]; reflexivity.
  - eexists. split; [apply load_runs_while_not_ready | reflexivity].
  - intros kv E. apply (startup_success api_load kv E).
Qed.

Lemma model_published_before_loaded_witness :
  (exists kv, model (mkState (Some true) (Some "Ready!") (Some 75) (Some (Some toy)))
              = Some (Some kv))
  /\ handle (Neighbors "king" 5)
       (mkState (Some false) (Some "Optimizing memory usage...") (Some 75)
                (Some (Some toy)))
     = mkOutcome
         (mkState (Some false) (Some "Optimizing memory usage...") (Some 75)
                  (Some (Some toy)))
         [] (inl (HTTPException 503 "Model not loaded"))
  /\ final (lifespan_startup (fun _ => inr toy) fresh) = ready_state toy.
Proof.
  destruct (model_published_before_loaded (fun _ => inr toy)) as [Hinv [_ Hfinal]].
  split; [|split].
  - destruct (Hinv (mkState (Some true) (Some "Ready!") (Some 75) (Some (Some toy))))
      as [Hloaded _].
    + rewrite (startup_states_success (fun _ => inr toy) toy eq_refl).
      simpl. do 13 right. left. reflexivity.
    + destruct (Hloaded eq_refl) as [kv [_ [Hm _]]]. exists kv. exact Hm.
  - destruct (Hinv (mkState (Some false) (Some "Optimizing memory usage...")
                            (Some 75) (Some (Some toy)))) as [_ Hnot].
    + rewrite (startup_states_success (fun _ => inr toy) toy eq_refl).
      simpl. do 11 right. left. reflexivity.
    + apply Hnot; [discriminate | reflexivity].
  - apply Hfinal. reflexivity.
Defined.

(** ** The word endpoints once the model is ready *)

Lemma ready_shape s :
  not_ready s = false ->
  exists kv, s = mkState (Some true) (loading_status s) (loading_progress s)
                         (Some (Some kv)).
Proof.
  intros H. destruct (ready_inv s H) as [Hl [kv Hm]]. exists kv.
  destruct s; simpl in *; subst; reflexivity.
Qed.

(** Runs a handler as far as the model's answers allow. *)
Ltac run_handler :=
  cbv beta iota zeta delta
    -[mem lower str_exn not_found key_to_index vector_size similarity
      most_similar scored String.append].

(** /similarity in a ready state, case by case. *)
Lemma get_similarity_ready ls lp kv word1 word2 :
  let s := mkState (Some true) ls lp (Some (Some kv)) in
  get_similarity word1 word2 s =
  if negb (mem (lower word1) (key_to_index kv)) then
    mkOutcome s
      [EvLookup (lower word1);
       EvLogError ("Error calculating similarity: " ++ str_exn (not_found word1))]
      (inl (HTTPException 500 (str_exn (not_found word1))))
  else if negb (mem (lower word2) (key_to_index kv)) then
    mkOutcome s
      [EvLookup (lower word1); EvLookup (lower word2);
       EvLogError ("Error calculating similarity: " ++ str_exn (not_found word2))]
      (inl (HTTPException 500 (str_exn (not_found word2))))
  else match similarity kv (lower word1) (lower word2) with
       | inl e =>
           mkOutcome s
             [EvLookup (lower word1); EvLookup (lower word2);
              EvSimilarity (lower word1) (lower word2);
              EvLogError ("Error calculating similarity: " ++ str_exn e)]
             (inl (HTTPException 500 (str_exn e)))
       | inr sim =>
           mkOutcome s
             [EvLookup (lower word1); EvLookup (lower word2);
              EvSimilarity (lower word1) (lower word2)]
             (inr (JObj [("word1", JStr (lower word1));
                         ("word2", JStr (lower word2));
                         ("similarity", JFloat sim)]))
       end.
Proof.
  run_handler.
  destruct (mem (lower word1) (key_to_index kv)); [|reflexivity].
  destruct (mem (lower word2) (key_to_index kv)); [|reflexivity].
  destruct (similarity kv (lower word1) (lower word2)); reflexivity.
Qed.

(** /neighbors in a ready state, case by case. *)
Lemma get_neighbors_ready ls lp kv word topn :
  let s := mkState (Some true) ls lp (Some (Some kv)) in
  get_neighbors word topn s =
  if negb (mem (lower word) (key_to_index kv)) then
    mkOutcome s
      [EvLookup (lower word);
       EvLogError ("Error finding neighbors: " ++ str_exn (not_found word))]
      (inl (HTTPException 500 (str_exn (not_found word))))
  else match most_similar kv [lower word] [] topn with
       | inl e =>
           mkOutcome s
             [EvLookup (lower word); EvMostSimilar [lower word] [] topn;
              EvLogError ("Error finding neighbors: " ++ str_exn e)]
             (inl (HTTPException 500 (str_exn e)))
       | inr similar_words =>
           mkOutcome s
             [EvLookup (lower word); EvMostSimilar [lower word] [] topn]
             (inr (JObj [("word", JStr (lower word));
                         ("neighbors", scored similar_words)]))
       end.
Proof.
  run_handler.
  destruct (mem (lower word) (key_to_index kv)); [|reflexivity].
  destruct (most_similar kv [lower word] [] topn); reflexivity.
Qed.

(** /analogy in a ready state, case by case. *)
Lemma solve_analogy_ready ls lp kv a b c topn :
  let s := mkState (Some true) ls lp (Some (Some kv)) in
  let failed (looked : list string) (word : string) :=
    mkOutcome s
      (map EvLookup looked
       ++ [EvLogError ("Error solving analogy: " ++ str_exn (not_found word))])%list
      (inl (HTTPException 500 (str_exn (not_found word)))) in
  solve_analogy a b c topn s =
  if negb (mem (lower a) (key_to_index kv)) then failed [lower a] (lower a)
  else if negb (mem (lower b) (key_to_index kv)) then
    failed [lower a; lower b] (lower b)
  else if negb (mem (lower c) (key_to_index kv)) then
    failed [lower a; lower b; lower c] (lower c)
  else match most_similar kv [lower a; lower c] [lower b] topn with
       | inl e =>
           mkOutcome s
             [EvLookup (lower a); EvLookup (lower b); EvLookup (lower c);
              EvMostSimilar [lower a; lower c] [lower b] topn;
              EvLogError ("Error solving analogy: " ++ str_exn e)]
             (inl (HTTPException 500 (str_exn e)))
       | inr results =>
           mkOutcome s
             [EvLookup (lower a); EvLookup (lower b); EvLookup (lower c);
              EvMostSimilar [lower a; lower c] [lower b] topn]
             (inr (JObj [("analogy", JStr (a ++ " - " ++ b ++ " + " ++ c));
                         ("results", scored results)]))
       end.
Proof.
  run_handler.
  destruct (mem (lower a) (key_to_index kv)); [|reflexivity].
  destruct (mem (lower b) (key_to_index kv)); [|reflexivity].
  destruct (mem (lower c) (key_to_index kv)); [|reflexivity].
  destruct (most_similar kv [lower a; lower c] [lower b] topn); reflexivity.
Qed.

(** Whatever happens inside the [try] block of a word endpoint, what leaves
    it is a value or a 500. *)
Lemma try_block_result {A} (m : M A) what s :
  match result (try_except m (internal_error what) s) with
  | inr _ => True
  | inl e => exists d, e = HTTPException 500 d
  end.
Proof.
  unfold try_except. destruct (m s) as [s1 t1 [e|a]]; simpl.
  - exists (str_exn e). reflexivity.
  - exact I.
Qed.

Lemma guarded_try_status {A} (m : M A) what s :
  let r := result (bind require_model
                     (fun _ => try_except m (internal_error what)) s) in
  match r with
  | inr _ => True
  | inl e => exists d, e = HTTPException 503 d \/ e = HTTPException 500 d
  end.
Proof.
  cbv zeta. destruct (not_ready s) eqn:Hs.
  - rewrite (guarded_refuses _ s Hs). cbn [result].
    exists "Model not loaded". left. reflexivity.
  - rewrite (bind_returned _ _ s tt (require_model_passes s Hs)).
    pose proof (try_block_result m what s) as H.
    destruct (result (try_except m (internal_error what) s)); [|exact I].
    destruct H as [d ->]. exists d. right. reflexivity.
Qed.

(** X1: no handler ever lets a 404 through: the only 404s are raised inside
    the [try] blocks. *)
Theorem no_endpoint_answers_404 (c : call) (s : AppState) :
  status (respond (result (handle c s))) <> 404.
Proof.
  destruct c; simpl handle.
  - discriminate.
  - unfold get_similarity.
    match goal with
    | |- context [try_except ?m (internal_error ?w)] =>
        pose proof (guarded_try_status m w s) as H
    end.
    simpl in H. destruct (result _) as [e|j]; [|discriminate].
    destruct H as [d [->| ->]]; discriminate.
  - unfold solve_analogy.
    match goal with
    | |- context [try_except ?m (internal_error ?w)] =>
        pose proof (guarded_try_status m w s) as H
    end.
    simpl in H. destruct (result _) as [e|j]; [|discriminate].
    destruct H as [d [->| ->]]; discriminate.
  - unfold get_neighbors.
    match goal with
    | |- context [try_except ?m (internal_error ?w)] =>
        pose proof (guarded_try_status m w s) as H
    end.
    simpl in H. destruct (result _) as [e|j]; [|discriminate].
    destruct H as [d [->| ->]]; discriminate.
  - destruct s as [[[|]|] ls lp [[kv|]|]]; discriminate.
  - destruct s as [[[|]|] ls lp [[kv|]|]]; try discriminate.
    unfold get_loading_status, bind, get, state_model. simpl.
    destruct (key_to_index kv); discriminate.
  - destruct s as [[[|]|] ls lp [[kv|]|]]; discriminate.
Qed.

(** X2: in a ready state a word that is not in the vocabulary ends every word
    endpoint with a 500 that carries the text of the 404, and no vector
    computation has been logged. *)
Theorem unknown_word_raises_500 ls lp kv word :
  mem (lower word) (key_to_index kv) = false ->
  (forall word2,
     result (get_similarity word word2 (mkState (Some true) ls lp (Some (Some kv))))
     = inl (HTTPException 500 ("404: Word '" ++ word ++ "' not found in vocabulary"))
     /\ existsb is_computation
          (trace (get_similarity word word2
                    (mkState (Some true) ls lp (Some (Some kv))))) = false)
  /\ (forall topn,
        result (get_neighbors word topn (mkState (Some true) ls lp (Some (Some kv))))
        = inl (HTTPException 500 ("404: Word '" ++ word ++ "' not found in vocabulary"))
        /\ existsb is_computation
             (trace (get_neighbors word topn
                       (mkState (Some true) ls lp (Some (Some kv))))) = false)
  /\ (forall b c topn,
        result (solve_analogy word b c topn (mkState (Some true) ls lp (Some (Some kv))))
        = inl (HTTPException 500
                 ("404: Word '" ++ lower word ++ "' not found in vocabulary"))
        /\ existsb is_computation
             (trace (solve_analogy word b c topn
                       (mkState (Some true) ls lp (Some (Some kv))))) = false).
Proof.
  intros Hw. split; [|split].
  - intros word2. pose proof (get_similarity_ready ls lp kv word word2) as H.
    simpl in H. rewrite H, Hw. split; reflexivity.
  - intros topn. pose proof (get_neighbors_ready ls lp kv word topn) as H.
    simpl in H. rewrite H, Hw. split; reflexivity.
  - intros b c topn. pose proof (solve_analogy_ready ls lp kv word b c topn) as H.
    cbv zeta in H. rewrite H, Hw. split; reflexivity.
Qed.

Lemma unknown_word_raises_500_witness :
  result (get_neighbors "Zzz" 3 ready)
  = inl (HTTPException 500 "404: Word 'Zzz' not found in vocabulary")
  /\ existsb is_computation (trace (get_neighbors "Zzz" 3 ready)) = false.
Proof.
  destruct (unknown_word_raises_500 (Some "Ready!") (Some 100) toy "Zzz" eq_refl)
    as [_ [H _]].
  exact (H 3).
Defined.

(** ** Successful responses *)

Lemma success_needs_ready {A} (k : unit -> M A) s a :
  result (bind require_model k s) = inr a -> not_ready s = false.
Proof.
  intros H. destruct (not_ready s) eqn:Hs; [|reflexivity].
  rewrite (guarded_refuses k s Hs) in H. discriminate.
Qed.

(** X3: a 200 from /similarity repeats the two words lowered and carries the
    value [model.similarity] returned for them. *)
Theorem similarity_success s word1 word2 j :
  result (get_similarity word1 word2 s) = inr j ->
  exists kv sim,
    model s = Some (Some kv)
    /\ similarity kv (lower word1) (lower word2) = inr sim
    /\ j = JObj [("word1", JStr (lower word1));
                 ("word2", JStr (lower word2));
                 ("similarity", JFloat sim)].
Proof.
  intros H. pose proof (success_needs_ready _ s j H) as Hs.
  destruct (ready_shape s Hs) as [kv Es]. rewrite Es in H |- *.
  pose proof (get_similarity_ready (loading_status s) (loading_progress s)
                kv word1 word2) as Hc.
  simpl in Hc. rewrite Hc in H. clear Hc.
  destruct (mem (lower word1) (key_to_index kv)); simpl in H; [|discriminate].
  destruct (mem (lower word2) (key_to_index kv)); simpl in H; [|discriminate].
  destruct (similarity kv (lower word1) (lower word2)) as [e|sim] eqn:E;
    simpl in H; [discriminate|].
  exists kv, sim. inversion H. auto.
Qed.

Lemma similarity_success_witness :
  exists kv sim,
    model ready = Some (Some kv)
    /\ similarity kv (lower "King") (lower "QUEEN") = inr sim
    /\ JObj [("word1", JStr "king"); ("word2", JStr "queen");
             ("similarity", JFloat 0.5)]
       = JObj [("word1", JStr (lower "King"));
               ("word2", JStr (lower "QUEEN"));
               ("similarity", JFloat sim)].
Proof.
  apply (similarity_success ready "King" "QUEEN"). reflexivity.
Defined.

(** X4: a 200 from /neighbors repeats the word lowered and lists, in the model's
    order and with nothing added or dropped, what [most_similar] returned for
    the lowered word and the given [topn]. *)
Theorem neighbors_success s word topn j :
  result (get_neighbors word topn s) = inr j ->
  exists kv similar_words,
    model s = Some (Some kv)
    /\ mem (lower word) (key_to_index kv) = true
    /\ most_similar kv [lower word] [] topn = inr similar_words
    /\ j = JObj [("word", JStr (lower word));
                 ("neighbors",
                  JList (map (fun p => JObj [("word", JStr (fst p));
                                             ("similarity", JFloat (snd p))])
                             similar_words))].
Proof.
  intros H. pose proof (success_needs_ready _ s j H) as Hs.
  destruct (ready_shape s Hs) as [kv Es]. rewrite Es in H |- *.
  pose proof (get_neighbors_ready (loading_status s) (loading_progress s)
                kv word topn) as Hc.
  simpl in Hc. rewrite Hc in H. clear Hc.
  destruct (mem (lower word) (key_to_index kv)) eqn:Ew; simpl in H; [|discriminate].
  destruct (most_similar kv [lower word] [] topn) as [e|l] eqn:E;
    simpl in H; [discriminate|].
  exists kv, l. inversion H. auto.
Qed.

Lemma neighbors_success_witness :
  exists kv similar_words,
    model ready = Some (Some kv)
    /\ mem (lower "King") (key_to_index kv) = true
    /\ most_similar kv [lower "King"] [] 2 = inr similar_words
    /\ JObj [("word", JStr "king");
             ("neighbors",
              JList [JObj [("word", JStr "queen"); ("similarity", JFloat 0.75)];
                     JObj [("word", JStr "woman"); ("similarity", JFloat 0.5)]])]
       = JObj [("word", JStr (lower "King"));
               ("neighbors",
                JList (map (fun p => JObj [("word", JStr (fst p));
                                           ("similarity", JFloat (snd p))])
                           similar_words))].
Proof.
  apply (neighbors_success ready "King" 2). reflexivity.
Defined.

(** X5: a 200 from /analogy repeats the three words as they were passed, not
    lowered, and lists what [most_similar] returned for the lowered words. *)
Theorem analogy_success s a b c topn j :
  result (solve_analogy a b c topn s) = inr j ->
  exists kv results,
    model s = Some (Some kv)
    /\ most_similar kv [lower a; lower c] [lower b] topn = inr results
    /\ j = JObj [("analogy", JStr (a ++ " - " ++ b ++ " + " ++ c));
                 ("results", scored results)].
Proof.
  intros H. pose proof (success_needs_ready _ s j H) as Hs.
  destruct (ready_shape s Hs) as [kv Es]. rewrite Es in H |- *.
  pose proof (solve_analogy_ready (loading_status s) (loading_progress s)
                kv a b c topn) as Hc.
  cbv zeta in Hc. rewrite Hc in H. clear Hc.
  destruct (mem (lower a) (key_to_index kv)); simpl in H; [|discriminate].
  destruct (mem (lower b) (key_to_index kv)); simpl in H; [|discriminate].
  destruct (mem (lower c) (key_to_index kv)); simpl in H; [|discriminate].
  destruct (most_similar kv [lower a; lower c] [lower b] topn) as [e|l] eqn:E;
    simpl in H; [discriminate|].
  exists kv, l. inversion H. auto.
Qed.

Lemma analogy_success_witness :
  exists kv results,
    model ready = Some (Some kv)
    /\ most_similar kv [lower "King"; lower "woman"] [lower "man"] 1 = inr results
    /\ JObj [("analogy", JStr "King - man + woman");
             ("results",
              JList [JObj [("word", JStr "queen"); ("similarity", JFloat 0.75)]])]
       = JObj [("analogy", JStr ("King" ++ " - " ++ "man" ++ " + " ++ "woman"));
               ("results", scored results)].
Proof.
  apply (analogy_success ready "King" "man" "woman" 1). reflexivity.
Defined.

(** X6: /vocabulary in a ready state: the size, the dimension and the first
    [min(20, size)] keys in the model's order. *)
Theorem vocabulary_sample ls lp kv :
  get_vocabulary_info (mkState (Some true) ls lp (Some (Some kv)))
  = mkOutcome (mkState (Some true) ls lp (Some (Some kv)))
      [EvVocabLen; EvVectorSize; EvVocabKeys]
      (inr (JObj [("vocabulary_size", JInt (Z.of_nat (length (key_to_index kv))));
                  ("vector_dimensions", JInt (vector_size kv));
                  ("sample_words",
                   JList (map JStr (firstn 20 (key_to_index kv))))]))
  /\ length (map JStr (firstn 20 (key_to_index kv)))
     = Nat.min 20 (length (key_to_index kv)).
Proof.
  split; [reflexivity|]. rewrite length_map. apply length_firstn.
Qed.

(** X7: shutdown deletes the model attribute of a loaded, non-empty model and
    leaves [model_loaded] set; the guard then answers 503. *)
Theorem shutdown_unpublishes kv :
  key_to_index kv <> [] ->
  final (lifespan_shutdown (ready_state kv))
  = mkState (Some true) (Some "Ready!") (Some 100) None
  /\ forall c, needs_model c = true ->
       result (handle c (final (lifespan_shutdown (ready_state kv))))
       = inl (HTTPException 503 "Model not loaded").
Proof.
  intros Hne.
  assert (E : final (lifespan_shutdown (ready_state kv))
              = mkState (Some true) (Some "Ready!") (Some 100) None).
  { unfold lifespan_shutdown, bind, get, state_model, update, emit. simpl.
    destruct (key_to_index kv); [contradiction | reflexivity]. }
  split; [exact E|]. intros c Hc. rewrite E.
  rewrite (handle_refuses c _ Hc); reflexivity.
Qed.

Lemma shutdown_unpublishes_witness :
  final (lifespan_shutdown (ready_state toy))
  = mkState (Some true) (Some "Ready!") (Some 100) None
  /\ result (handle Vocabulary (final (lifespan_shutdown (ready_state toy))))
     = inl (HTTPException 503 "Model not loaded").
Proof.
  destruct (shutdown_unpublishes toy) as [E H]; [discriminate|].
  split; [exact E | exact (H Vocabulary eq_refl)].
Defined.

(** ** The status endpoints *)

(** X8: in every state of [app.state], attributes unset or not, /health and
    /loading-status return a value (they never raise), /health looks at the
    model only when [model_loaded] is true and a model is published, and the
    two report the same [model_loaded] and the same [vocabulary_size]: the
    vocabulary size when loaded with a model, 0 otherwise. *)
Theorem status_endpoints_agree (now : string) (s : AppState) :
  health_check now s
  = mkOutcome s
      (if getattr_model_loaded s && published s then [EvVocabLen] else [])
      (inr (JObj [("status",
                   JStr (if getattr_model_loaded s then "ready" else "initializing"));
                  ("timestamp", JStr now);
                  ("service", JStr "Word Vector API");
                  ("model_loaded", JBool (getattr_model_loaded s));
                  ("vocabulary_size", JInt (reported_size s))]))
  /\ result (get_loading_status s)
     = inr (JObj [("model_loaded", JBool (getattr_model_loaded s));
                  ("loading_status",
                   JStr (match loading_status s with
                         | Some t => t
                         | None => "Unknown"
                         end));
                  ("loading_progress",
                   JInt (match loading_progress s with Some n => n | None => 0 end));
                  ("vocabulary_size", JInt (reported_size s))]).
Proof.
  destruct s as [[[|]|] ls lp [[kv|]|]]; split; try reflexivity.
  destruct kv as [[|key keys] size sim ms]; reflexivity.
Qed.

(** X9: in every state the startup goes through, [model_loaded] (what /health
    reports as "ready") is true exactly when the guard of the model endpoints
    lets a request through. *)
Theorem health_ready_iff_serving (api_load : string -> exn + KeyedVectors)
    (s : AppState) :
  In s (startup_states api_load) ->
  (getattr_model_loaded s = true <-> not_ready s = false).
Proof.
  intros Hin. destruct (api_load model_name) as [e|kv] eqn:E.
  - rewrite (startup_states_failure api_load e E) in Hin. simpl in Hin.
    repeat (destruct Hin as [Hin|Hin];
            [subst s; split; intros H; discriminate H|]).
    contradiction.
  - rewrite (startup_states_success api_load kv E) in Hin. simpl in Hin.
    repeat (destruct Hin as [Hin|Hin];
            [subst s; split; intros H; first [discriminate H | reflexivity]|]).
    contradiction.
Qed.

Lemma health_ready_iff_serving_witness :
  getattr_model_loaded
    (mkState (Some false) (Some "Optimizing memory usage...") (Some 75)
             (Some (Some toy))) = true
  <-> not_ready
        (mkState (Some false) (Some "Optimizing memory usage...") (Some 75)
                 (Some (Some toy))) = false.
Proof.
  apply (health_ready_iff_serving (fun _ => inr toy)).
  rewrite (startup_states_success (fun _ => inr toy) toy eq_refl).
  simpl. do 11 right. left. reflexivity.
Defined.

(** ** The lifespan *)

(** X10: whatever [app.state] held before and whatever [api.load] does, the
    startup never raises, calls [api.load] exactly once, and leaves the state
    of a finished load or of a recorded failure: all four attributes are
    overwritten. *)
Theorem startup_from_any_state (api_load : string -> exn + KeyedVectors)
    (s0 : AppState) :
  result (lifespan_startup api_load s0) = inr tt
  /\ count_loads (trace (lifespan_startup api_load s0)) = 1%nat
  /\ final (lifespan_startup api_load s0)
     = match api_load model_name with
       | inl e => error_state e
       | inr kv => ready_state kv
       end.
Proof.
  destruct s0 as [ml ls lp m]. unfold lifespan_startup.
  destruct (api_load model_name) as [e|kv]; repeat split; vm_compute; reflexivity.
Qed.

(** X11: every progress value shown during startup lies in 0..100; when the
    load succeeds the values never decrease (0, 25, 50, 75, 100), and when
    it fails they do: the failure resets the progress from 50 to 0. *)
Theorem startup_progress (api_load : string -> exn + KeyedVectors) :
  Forall (fun n => 0 <= n <= 100) (progresses (startup_states api_load))
  /\ (forall kv, api_load model_name = inr kv ->
        progresses (startup_states api_load)
        = [0; 0; 0; 25; 25; 50; 50; 50; 75; 75; 75; 100]
        /\ nondecreasing (progresses (startup_states api_load)) = true)
  /\ (forall e, api_load model_name = inl e ->
        nondecreasing (progresses (startup_states api_load)) = false).
Proof.
  split; [|split].
  - destruct (api_load model_name) as [e|kv] eqn:E.
    + rewrite (startup_states_failure api_load e E). simpl.
      repeat constructor; lia.
    + rewrite (startup_states_success api_load kv E). simpl.
      repeat constructor; lia.
  - intros kv E. rewrite (startup_states_success api_load kv E).
    split; reflexivity.
  - intros e E. rewrite (startup_states_failure api_load e E). reflexivity.
Qed.

Lemma startup_progress_witness :
  nondecreasing (progresses (startup_states (fun _ => inr toy))) = true
  /\ nondecreasing
       (progresses (startup_states (fun _ => inl (OtherException "no network"))))
     = false.
Proof.
  destruct (startup_progress (fun _ => inr toy)) as [_ [Hok _]].
  destruct (startup_progress (fun _ => inl (OtherException "no network")))
    as [_ [_ Hko]].
  split.
  - exact (proj2 (Hok toy eq_refl)).
  - exact (Hko (OtherException "no network") eq_refl).
Defined.

(** X12: the shutdown never raises, leaves [model_loaded], [loading_status]
    and [loading_progress] alone, deletes the [model] attribute exactly when
    it holds a model with a non-empty vocabulary (a model that is [None] or
    has no words is kept), and running it a second time changes nothing. *)
Theorem shutdown_frame (s : AppState) :
  result (lifespan_shutdown s) = inr tt
  /\ model_loaded (final (lifespan_shutdown s)) = model_loaded s
  /\ loading_status (final (lifespan_shutdown s)) = loading_status s
  /\ loading_progress (final (lifespan_shutdown s)) = loading_progress s
  /\ model (final (lifespan_shutdown s))
     = match model s with
       | Some m => if truthy m then None else Some m
       | None => None
       end
  /\ final (lifespan_shutdown (final (lifespan_shutdown s)))
     = final (lifespan_shutdown s).
Proof.
  destruct s as [ml ls lp [[kv|]|]]; try (repeat split; reflexivity).
  destruct kv as [[|key keys] size sim ms]; repeat split; reflexivity.
Qed.

(** ** What a handler can answer *)



(** X14: when the model is ready and the words are known, an exception [e]
    raised by the model's [similarity] or [most_similar] is logged and leaves
    the handler as a 500 whose detail is [str(e)]. *)
Theorem model_failure_becomes_500 ls lp kv (e : exn) :
  (forall word1 word2,
     mem (lower word1) (key_to_index kv) = true ->
     mem (lower word2) (key_to_index kv) = true ->
     similarity kv (lower word1) (lower word2) = inl e ->
     result (get_similarity word1 word2 (mkState (Some true) ls lp (Some (Some kv))))
     = inl (HTTPException 500 (str_exn e))
     /\ In (EvLogError ("Error calculating similarity: " ++ str_exn e))
           (trace (get_similarity word1 word2
                     (mkState (Some true) ls lp (Some (Some kv))))))
  /\ (forall word topn,
        mem (lower word) (key_to_index kv) = true ->
        most_similar kv [lower word] [] topn = inl e ->
        result (get_neighbors word topn (mkState (Some true) ls lp (Some (Some kv))))
        = inl (HTTPException 500 (str_exn e))
        /\ In (EvLogError ("Error finding neighbors: " ++ str_exn e))
              (trace (get_neighbors word topn
                        (mkState (Some true) ls lp (Some (Some kv))))))
  /\ (forall a b c topn,
        mem (lower a) (key_to_index kv) = true ->
        mem (lower b) (key_to_index kv) = true ->
        mem (lower c) (key_to_index kv) = true ->
        most_similar kv [lower a; lower c] [lower b] topn = inl e ->
        result (solve_analogy a b c topn (mkState (Some true) ls lp (Some (Some kv))))
        = inl (HTTPException 500 (str_exn e))
        /\ In (EvLogError ("Error solving analogy: " ++ str_exn e))
              (trace (solve_analogy a b c topn
                        (mkState (Some true) ls lp (Some (Some kv)))))).
Proof.
  split; [|split].
  - intros word1 word2 H1 H2 He.
    pose proof (get_similarity_ready ls lp kv word1 word2) as H.
    cbv zeta in H. rewrite H, H1, H2, He. cbn [negb result trace].
    split; [reflexivity|]. cbn [In]. auto.
  - intros word topn H1 He.
    pose proof (get_neighbors_ready ls lp kv word topn) as H.
    cbv zeta in H. rewrite H, H1, He. cbn [negb result trace].
    split; [reflexivity|]. cbn [In]. auto.
  - intros a b c topn Ha Hb Hc He.
    pose proof (solve_analogy_ready ls lp kv a b c topn) as H.
    cbv zeta in H. rewrite H, Ha, Hb, Hc, He. cbn [negb result trace].
    split; [reflexivity|]. cbn [In]. auto 6.
Qed.

Lemma model_failure_becomes_500_witness :
  result (get_neighbors "King" 3
            (mkState (Some true) (Some "Ready!") (Some 100) (Some (Some faulty))))
  = inl (HTTPException 500 "cannot compute similarity with no input")
  /\ In (EvLogError
           "Error finding neighbors: cannot compute similarity with no input")
        (trace (get_neighbors "King" 3
                  (mkState (Some true) (Some "Ready!") (Some 100)
                           (Some (Some faulty))))).
Proof.
  destruct (model_failure_becomes_500 (Some "Ready!") (Some 100) faulty
              (OtherException "cannot compute similarity with no input"))
    as [_ [H _]].
  exact (H "King" 3 eq_refl eq_refl).
Defined.

(** ** What validation lets through *)

Lemma validate_str_inr q v w : validate_str q v = inr w -> v = Some w.
Proof.
  unfold validate_str. destruct v as [s|]; [|discriminate].
  destruct (String.length s <? min_length q)%nat; [discriminate|].
  destruct (max_length q <? String.length s)%nat; [discriminate|].
  destruct (negb (matches_plus (pattern q) s)); [discriminate|].
  intros H. inversion H. reflexivity.
Qed.

Lemma validate_word_inr v w :
  validate_str word_query v = inr w -> v = Some w /\ ~ bad_word w.
Proof.
  intros H. pose proof (validate_str_inr _ _ _ H) as ->.
  split; [reflexivity | exact (accepted_word_is_good w H)].
Qed.

Lemma validate_int_inr q v n :
  validate_int q v = inr n ->
  (v = Some n /\ ge q <= n <= le q) \/ (v = None /\ n = default q).
Proof.
  unfold validate_int. destruct v as [m|].
  - destruct (m <? ge q) eqn:E1; [discriminate|].
    destruct (le q <? m) eqn:E2; [discriminate|].
    intros H. inversion H. subst. left.
    apply Z.ltb_ge in E1. apply Z.ltb_ge in E2. auto.
  - intros H. inversion H. auto.
Qed.

(** X15: a handler is called only with what the route declares: the words
    are the ones sent, unchanged, each with 1 to 32 characters from
    [A-Za-z-], and [topn] is the number sent, or the default when none was
    sent, and lies in 1..20. *)
Theorem validated_calls_are_well_formed (now : string) (r : request) (c : call) :
  validate now r = inr c -> well_formed c /\ sent_as r c.
Proof.
  intros H.
  destruct r as [|w1 w2|a b c' topn|word topn| | |]; cbn [validate] in H;
    try (inversion H; subst; split; [exact I | reflexivity]).
  - destruct (validate_str word_query w1) as [|x1] eqn:E1; [discriminate|].
    destruct (validate_str word_query w2) as [|x2] eqn:E2; [discriminate|].
    inversion H. subst.
    destruct (validate_word_inr _ _ E1) as [-> G1].
    destruct (validate_word_inr _ _ E2) as [-> G2].
    split; [split; assumption | reflexivity].
  - destruct (validate_str word_query a) as [|xa] eqn:Ea; [discriminate|].
    destruct (validate_str word_query b) as [|xb] eqn:Eb; [discriminate|].
    destruct (validate_str word_query c') as [|xc] eqn:Ec; [discriminate|].
    destruct (validate_int analogy_topn topn) as [|n] eqn:En; [discriminate|].
    inversion H. subst.
    destruct (validate_word_inr _ _ Ea) as [-> Ga].
    destruct (validate_word_inr _ _ Eb) as [-> Gb].
    destruct (validate_word_inr _ _ Ec) as [-> Gc].
    destruct (validate_int_inr _ _ _ En) as [[-> Hn]|[-> ->]];
      cbn [ge le default analogy_topn] in *.
    + split; [repeat split; try assumption; lia | left; reflexivity].
    + split; [repeat split; try assumption; lia | right; split; reflexivity].
  - destruct (validate_str word_query word) as [|xw] eqn:Ew; [discriminate|].
    destruct (validate_int neighbors_topn topn) as [|n] eqn:En; [discriminate|].
    inversion H. subst.
    destruct (validate_word_inr _ _ Ew) as [-> Gw].
    destruct (validate_int_inr _ _ _ En) as [[-> Hn]|[-> ->]];
      cbn [ge le default neighbors_topn] in *.
    + split; [repeat split; try assumption; lia | left; reflexivity].
    + split; [repeat split; try assumption; lia | right; split; reflexivity].
Qed.

Lemma validated_calls_are_well_formed_witness :
  well_formed (Neighbors "well-known" 10)
  /\ sent_as (GetNeighbors (Some "well-known") None) (Neighbors "well-known" 10).
Proof.
  apply (validated_calls_are_well_formed "2026-01-01T00:00:00"). reflexivity.
Defined.

(** X16: a request to /similarity, /analogy or /neighbors that lacks one of
    its word parameters is answered 422 in any state, without the handler
    being called. *)
Theorem missing_word_is_rejected (now : string) (r : request) :
  In None (words_of r) -> rejected now r.
Proof.
  intros Hin.
  assert (Hm : validate_str word_query None = inl Missing) by reflexivity.
  assert (He : exists errs, validate now r = inl errs).
  { destruct r as [|w1 w2|a b c topn|word topn| | |];
      cbn [words_of In] in Hin; try contradiction; cbn [validate].
    - destruct Hin as [E|[E|[]]]; subst; rewrite Hm; settle_validate.
    - destruct Hin as [E|[E|[E|[]]]]; subst; rewrite Hm; settle_validate.
    - destruct Hin as [E|[]]; subst; rewrite Hm; settle_validate. }
  destruct He as [errs He]. exact (invalid_is_rejected now r errs He).
Qed.

Lemma missing_word_is_rejected_witness :
  rejected "2026-01-01T00:00:00" (GetSimilarity (Some "king") None).
Proof.
  apply missing_word_is_rejected. simpl. right. left. reflexivity.
Defined.

(** ** Letter case *)

(** X17: /similarity and /neighbors do not look at the case of the words:
    when a request succeeds, any request whose words have the same lowered
    form ends the same way, with the same lookups, the same model call and
    the same body. *)
Theorem answers_ignore_case (s : AppState) :
  (forall word1 word2 word1' word2' j,
     lower word1 = lower word1' -> lower word2 = lower word2' ->
     result (get_similarity word1 word2 s) = inr j ->
     get_similarity word1' word2' s = get_similarity word1 word2 s)
  /\ (forall word word' topn j,
        lower word = lower word' ->
        result (get_neighbors word topn s) = inr j ->
        get_neighbors word' topn s = get_neighbors word topn s).
Proof.
  split.
  - intros word1 word2 word1' word2' j E1 E2 H.
    pose proof (success_needs_ready _ s j H) as Hs.
    destruct (ready_shape s Hs) as [kv Es]. rewrite Es in H |- *.
    pose proof (get_similarity_ready (loading_status s) (loading_progress s)
                  kv word1 word2) as Hc.
    pose proof (get_similarity_ready (loading_status s) (loading_progress s)
                  kv word1' word2') as Hc'.
    cbv zeta in Hc, Hc'. rewrite Hc in H |- *. rewrite Hc'.
    rewrite <- E1, <- E2.
    destruct (mem (lower word1) (key_to_index kv)); cbn [negb] in *;
      [|discriminate H].
    destruct (mem (lower word2) (key_to_index kv)); cbn [negb] in *;
      [|discriminate H].
    reflexivity.
  - intros word word' topn j E H.
    pose proof (success_needs_ready _ s j H) as Hs.
    destruct (ready_shape s Hs) as [kv Es]. rewrite Es in H |- *.
    pose proof (get_neighbors_ready (loading_status s) (loading_progress s)
                  kv word topn) as Hc.
    pose proof (get_neighbors_ready (loading_status s) (loading_progress s)
                  kv word' topn) as Hc'.
    cbv zeta in Hc, Hc'. rewrite Hc in H |- *. rewrite Hc'.
    rewrite <- E.
    destruct (mem (lower word) (key_to_index kv)); cbn [negb] in *;
      [|discriminate H].
    reflexivity.
Qed.

Lemma answers_ignore_case_witness :
  get_similarity "KING" "queen" ready = get_similarity "King" "QUEEN" ready.
Proof.
  destruct (answers_ignore_case ready) as [H _].
  apply (H "King" "QUEEN" "KING" "queen"
           (JObj [("word1", JStr "king"); ("word2", JStr "queen");
                  ("similarity", JFloat 0.5)]));
    reflexivity.
Defined.

(** ** The root [main.py] beside the application *)

(** X18: with a model whose vocabulary is not empty, the handlers of the root
    [main.py] end exactly as those of [word-embeddings-app/main.py] do in a
    ready state, for all words and every [topn] (the root [main.py] puts no
    bound on them). *)
Theorem legacy_agrees_when_loaded ls lp (kv : KeyedVectors) :
  key_to_index kv <> [] ->
  (forall word1 word2,
     Legacy.get_similarity (Some kv) word1 word2
     = result (get_similarity word1 word2
                 (mkState (Some true) ls lp (Some (Some kv)))))
  /\ (forall a b c topn,
        Legacy.solve_analogy (Some kv) a b c topn
        = result (solve_analogy a b c topn
                    (mkState (Some true) ls lp (Some (Some kv)))))
  /\ (forall word topn,
        Legacy.get_neighbors (Some kv) word topn
        = result (get_neighbors word topn
                    (mkState (Some true) ls lp (Some (Some kv)))))
  /\ Legacy.get_vocabulary_info (Some kv)
     = result (get_vocabulary_info (mkState (Some true) ls lp (Some (Some kv)))).
Proof.
  intros Hne.
  assert (Ht : truthy (Some kv) = true).
  { unfold truthy. destruct (key_to_index kv); [contradiction | reflexivity]. }
  split; [|split; [|split]].
  - intros word1 word2.
    pose proof (get_similarity_ready ls lp kv word1 word2) as H.
    cbv zeta in H. rewrite H. unfold Legacy.get_similarity. rewrite Ht.
    cbn [negb].
    destruct (mem (lower word1) (key_to_index kv)); cbn [negb]; [|reflexivity].
    destruct (mem (lower word2) (key_to_index kv)); cbn [negb]; [|reflexivity].
    destruct (similarity kv (lower word1) (lower word2)); reflexivity.
  - intros a b c topn.
    pose proof (solve_analogy_ready ls lp kv a b c topn) as H.
    cbv zeta in H. rewrite H.
    unfold Legacy.solve_analogy, Legacy.when_model, Legacy.or_500,
      Legacy.check_words.
    rewrite Ht. cbn [negb].
    destruct (mem (lower a) (key_to_index kv)); cbn [negb]; [|reflexivity].
    destruct (mem (lower b) (key_to_index kv)); cbn [negb]; [|reflexivity].
    destruct (mem (lower c) (key_to_index kv)); cbn [negb]; [|reflexivity].
    destruct (most_similar kv [lower a; lower c] [lower b] topn); reflexivity.
  - intros word topn.
    pose proof (get_neighbors_ready ls lp kv word topn) as H.
    cbv zeta in H. rewrite H.
    unfold Legacy.get_neighbors, Legacy.when_model, Legacy.or_500.
    rewrite Ht. cbn [negb].
    destruct (mem (lower word) (key_to_index kv)); cbn [negb]; [|reflexivity].
    destruct (most_similar kv [lower word] [] topn); reflexivity.
  - unfold Legacy.get_vocabulary_info, Legacy.when_model. rewrite Ht.
    reflexivity.
Qed.

Lemma legacy_agrees_when_loaded_witness :
  Legacy.get_neighbors (Some toy) "King" 2
  = result (get_neighbors "King" 2 ready).
Proof.
  destruct (legacy_agrees_when_loaded (Some "Ready!") (Some 100) toy)
    as [_ [_ [H _]]].
  - discriminate.
  - exact (H "King" 2).
Defined.



(** X20: in the root [main.py] too, no word endpoint can answer 404: each
    ends with a value, with 503 "Model not loaded" or with a 500, whatever
    the model and the arguments. *)
Theorem legacy_outcomes (model : option KeyedVectors) :
  let settled (r : exn + json) :=
    (exists j, r = inr j)
    \/ r = inl (HTTPException 503 "Model not loaded")
    \/ (exists d, r = inl (HTTPException 500 d)) in
  (forall word1 word2, settled (Legacy.get_similarity model word1 word2))
  /\ (forall a b c topn, settled (Legacy.solve_analogy model a b c topn))
  /\ (forall word topn, settled (Legacy.get_neighbors model word topn)).
Proof.
  assert (Hor : forall r,
            (exists j, Legacy.or_500 r = inr j)
            \/ Legacy.or_500 r = inl (HTTPException 503 "Model not loaded")
            \/ (exists d, Legacy.or_500 r = inl (HTTPException 500 d))).
  { intros [e|j]; cbn [Legacy.or_500]; eauto. }
  cbv zeta. split; [|split].
  - intros word1 word2. unfold Legacy.get_similarity.
    destruct model as [kv|]; [|auto].
    destruct (negb (truthy (Some kv))); [auto|].
    match goal with
    | |- context [match ?r with inl e => inl (HTTPException 500 (str_exn e))
                             | inr j => inr j end] =>
        change (match r with inl e => inl (HTTPException 500 (str_exn e))
                          | inr j => inr j end) with (Legacy.or_500 r)
    end.
    apply Hor.
  - intros a b c topn. unfold Legacy.solve_analogy, Legacy.when_model.
    destruct model as [kv|]; [|auto].
    destruct (negb (truthy (Some kv))); [auto | apply Hor].
  - intros word topn. unfold Legacy.get_neighbors, Legacy.when_model.
    destruct model as [kv|]; [|auto].
    destruct (negb (truthy (Some kv))); [auto | apply Hor].
Qed.

(** ** The lookup loop of /analogy *)

Lemma in_vocabulary_ready ls lp kv w :
  in_vocabulary w (mkState (Some true) ls lp (Some (Some kv)))
  = mkOutcome (mkState (Some true) ls lp (Some (Some kv))) [EvLookup w]
      (inr (mem w (key_to_index kv))).
Proof. reflexivity. Qed.

Lemma check_words_cons ls lp kv w ws :
  check_words (w :: ws) (mkState (Some true) ls lp (Some (Some kv)))
  = if mem w (key_to_index kv)
    then match check_words ws (mkState (Some true) ls lp (Some (Some kv))) with
         | mkOutcome s2 t2 r => mkOutcome s2 (EvLookup w :: t2) r
         end
    else mkOutcome (mkState (Some true) ls lp (Some (Some kv))) [EvLookup w]
           (inl (not_found w)).
Proof.
  cbn [check_words]. unfold bind at 1. rewrite in_vocabulary_ready.
  destruct (mem w (key_to_index kv)); reflexivity.
Qed.

(** X21: in a ready state the loop over the words of /analogy looks the words
    up in order and stops at the first one the vocabulary lacks, which is the
    word the 404 names; the words after it are not looked up.  When none is
    missing every word has been looked up once. *)
Theorem check_words_stops_at_first_missing ls lp kv (known : list string) :
  forallb (fun w => mem w (key_to_index kv)) known = true ->
  check_words known (mkState (Some true) ls lp (Some (Some kv)))
  = mkOutcome (mkState (Some true) ls lp (Some (Some kv)))
      (map EvLookup known) (inr tt)
  /\ forall w rest,
       mem w (key_to_index kv) = false ->
       check_words (known ++ w :: rest) (mkState (Some true) ls lp (Some (Some kv)))
       = mkOutcome (mkState (Some true) ls lp (Some (Some kv)))
           (map EvLookup (known ++ [w])) (inl (not_found w)).
Proof.
  induction known as [|k known IH]; intros Hk.
  - split; [reflexivity|]. intros w rest Hw.
    cbn [app]. rewrite check_words_cons, Hw. reflexivity.
  - cbn [forallb] in Hk. apply andb_true_iff in Hk. destruct Hk as [Hk Hrest].
    destruct (IH Hrest) as [IH1 IH2]. split.
    + rewrite check_words_cons, Hk, IH1. reflexivity.
    + intros w rest Hw. cbn [app]. rewrite check_words_cons, Hk.
      rewrite (IH2 w rest Hw). reflexivity.
Qed.

Lemma check_words_stops_at_first_missing_witness :
  check_words ["king"; "zzz"; "yyy"] ready
  = mkOutcome ready [EvLookup "king"; EvLookup "zzz"] (inl (not_found "zzz")).
Proof.
  destruct (check_words_stops_at_first_missing (Some "Ready!") (Some 100) toy
              ["king"] eq_refl) as [_ H].
  exact (H "zzz" ["yyy"] eq_refl).
Defined.

(** ** From startup to an answer *)



(** ** What reaches the model *)

Lemma lower_length w : String.length (lower w) = String.length w.
Proof. induction w as [|c w IH]; simpl; [reflexivity | rewrite IH; reflexivity]. Qed.

Lemma lower_chars w c :
  In c (list_ascii_of_string (lower w)) ->
  exists c0, In c0 (list_ascii_of_string w) /\ c = lower_ascii c0.
Proof.
  induction w as [|a w IH]; simpl; [contradiction|].
  intros [H|H].
  - exists a. auto.
  - destruct (IH H) as [c0 [Hin Hc]]. exists c0. auto.
Qed.

Lemma lower_ascii_clean c :
  word_char c ->
  (nat_of_ascii "a" <= nat_of_ascii (lower_ascii c) <= nat_of_ascii "z")%nat
  \/ lower_ascii c = "-"%char.
Proof.
  unfold word_char, lower_ascii, is_upper.
  change (nat_of_ascii "A") with 65%nat. change (nat_of_ascii "Z") with 90%nat.
  change (nat_of_ascii "a") with 97%nat. change (nat_of_ascii "z") with 122%nat.
  cbv zeta. intros H.
  destruct ((65 <=? nat_of_ascii c)%nat && (nat_of_ascii c <=? 90)%nat) eqn:U.
  - apply andb_true_iff in U. destruct U as [U1 U2].
    apply Nat.leb_le in U1. apply Nat.leb_le in U2.
    left. rewrite nat_ascii_embedding; lia.
  - apply andb_false_iff in U.
    destruct H as [H|[H|H]]; [|left; exact H | right; exact H].
    destruct U as [U|U]; apply Nat.leb_gt in U; lia.
Qed.

Lemma good_word_chars w :
  ~ bad_word w ->
  w <> "" /\ (String.length w <= 32)%nat
  /\ forall c, In c (list_ascii_of_string w) -> word_char c.
Proof.
  intros Hw. split; [|split].
  - intros E. apply Hw. left. exact E.
  - destruct (Nat.le_gt_cases (String.length w) 32) as [H|H]; [exact H|].
    exfalso. apply Hw. right. left. exact H.
  - destruct (matches_plus (pattern word_query) w) eqn:E.
    + apply matches_plus_word in E. exact (proj2 E).
    + exfalso. apply Hw.
      unfold matches_plus in E. destruct w as [|a w]; [left; reflexivity|].
      right. right.
      apply forallb_false_witness in E. destruct E as [c [Hin Hc]].
      exists c. split; [exact Hin|]. intros Hwc. apply in_class_word in Hwc.
      rewrite Hwc in Hc. discriminate.
Qed.

Lemma lower_clean w : ~ bad_word w -> clean_word (lower w).
Proof.
  intros Hw. destruct (good_word_chars w Hw) as [Hne [Hlen Hchars]].
  split; [|split].
  - intros E. apply Hne. pose proof (lower_length w) as Hl. rewrite E in Hl.
    destruct w; [reflexivity | discriminate Hl].
  - rewrite lower_length. exact Hlen.
  - intros c Hc. destruct (lower_chars w c Hc) as [c0 [Hin ->]].
    apply lower_ascii_clean, Hchars, Hin.
Qed.

Lemma validated_well_formed now r c : validate now r = inr c -> well_formed c.
Proof.
  intros H.
  destruct r as [|w1 w2|a b c' topn|word topn| | |]; cbn [validate] in H;
    try (inversion H; exact I).
  - destruct (validate_str word_query w1) eqn:E1; [discriminate|].
    destruct (validate_str word_query w2) eqn:E2; [discriminate|].
    inversion H. split; [exact (proj2 (validate_word_inr _ _ E1))
                        | exact (proj2 (validate_word_inr _ _ E2))].
  - destruct (validate_str word_query a) eqn:Ea; [discriminate|].
    destruct (validate_str word_query b) eqn:Eb; [discriminate|].
    destruct (validate_str word_query c') eqn:Ec; [discriminate|].
    destruct (validate_int analogy_topn topn) as [|n] eqn:En; [discriminate|].
    inversion H. cbn [well_formed].
    pose proof (proj2 (validate_word_inr _ _ Ea)).
    pose proof (proj2 (validate_word_inr _ _ Eb)).
    pose proof (proj2 (validate_word_inr _ _ Ec)).
    destruct (validate_int_inr _ _ _ En) as [[_ Hn]|[_ ->]];
      cbn [ge le default analogy_topn] in *; repeat split; try assumption; lia.
  - destruct (validate_str word_query word) eqn:Ew; [discriminate|].
    destruct (validate_int neighbors_topn topn) as [|n] eqn:En; [discriminate|].
    inversion H. cbn [well_formed].
    pose proof (proj2 (validate_word_inr _ _ Ew)).
    destruct (validate_int_inr _ _ _ En) as [[_ Hn]|[_ ->]];
      cbn [ge le default neighbors_topn] in *; repeat split; try assumption; lia.
Qed.

Ltac split_events H :=
  repeat match type of H with
    | In _ (_ :: _) => destruct H as [H|H]; [subst|]
    | In _ [] => contradiction H
    | False => contradiction H
    | _ \/ _ => destruct H as [H|H]; [subst|]
    end.

Ltac settle_clean Hev Hw :=
  cbn [trace negb app map] in Hev; split_events Hev;
  cbn [words_in app] in Hw; split_events Hw;
  apply lower_clean; assumption.

(** X23: whatever the request and the state, every word the service hands to
    the model (in a vocabulary lookup, to [similarity] or to [most_similar])
    has 1 to 32 characters, each a lower-case letter or the hyphen. *)
Theorem model_sees_only_clean_words (now : string) (r : request) (s : AppState)
    (ev : event) (w : string) :
  In ev (trace (serve now r s)) -> In w (words_in ev) -> clean_word w.
Proof.
  unfold serve. destruct (validate now r) as [errs|c] eqn:V; [contradiction|].
  cbn [trace]. pose proof (validated_well_formed now r c V) as Hwf.
  intros Hev Hw.
  destruct c as [|word1 word2|a b c topn|word topn|now'| |];
    try (destruct s as [[[|]|] ls lp [[[[|key keys] size sim ms]|]|]];
         simpl in Hev; split_events Hev; simpl in Hw; contradiction Hw).
  - destruct (not_ready s) eqn:Hs.
    { rewrite (handle_refuses (Similarity word1 word2) s eq_refl Hs) in Hev.
      contradiction Hev. }
    destruct (ready_shape s Hs) as [kv Es]. rewrite Es in Hev.
    cbn [handle] in Hev.
    pose proof (get_similarity_ready (loading_status s) (loading_progress s)
                  kv word1 word2) as H.
    cbv zeta in H. rewrite H in Hev. clear H. destruct Hwf as [G1 G2].
    destruct (mem (lower word1) (key_to_index kv)); [|settle_clean Hev Hw].
    destruct (mem (lower word2) (key_to_index kv)); [|settle_clean Hev Hw].
    destruct (similarity kv (lower word1) (lower word2)); settle_clean Hev Hw.
  - destruct (not_ready s) eqn:Hs.
    { rewrite (handle_refuses (Analogy a b c topn) s eq_refl Hs) in Hev.
      contradiction Hev. }
    destruct (ready_shape s Hs) as [kv Es]. rewrite Es in Hev.
    cbn [handle] in Hev.
    pose proof (solve_analogy_ready (loading_status s) (loading_progress s)
                  kv a b c topn) as H.
    cbv zeta in H. rewrite H in Hev. clear H. destruct Hwf as [Ga [Gb [Gc _]]].
    destruct (mem (lower a) (key_to_index kv)); [|settle_clean Hev Hw].
    destruct (mem (lower b) (key_to_index kv)); [|settle_clean Hev Hw].
    destruct (mem (lower c) (key_to_index kv)); [|settle_clean Hev Hw].
    destruct (most_similar kv [lower a; lower c] [lower b] topn);
      settle_clean Hev Hw.
  - destruct (not_ready s) eqn:Hs.
    { rewrite (handle_refuses (Neighbors word topn) s eq_refl Hs) in Hev.
      contradiction Hev. }
    destruct (ready_shape s Hs) as [kv Es]. rewrite Es in Hev.
    cbn [handle] in Hev.
    pose proof (get_neighbors_ready (loading_status s) (loading_progress s)
                  kv word topn) as H.
    cbv zeta in H. rewrite H in Hev. clear H. destruct Hwf as [G _].
    destruct (mem (lower word) (key_to_index kv)); [|settle_clean Hev Hw].
    destruct (most_similar kv [lower word] [] topn); settle_clean Hev Hw.
Qed.

Lemma model_sees_only_clean_words_witness : clean_word "well-known".
Proof.
  apply (model_sees_only_clean_words "2026-01-01T00:00:00"
           (GetNeighbors (Some "Well-Known") (Some 3)) ready
           (EvLookup "well-known") "well-known").
  - simpl. left. reflexivity.
  - simpl. left. reflexivity.
Defined.
